(** * django_multitenant: tenant scoping of relations, managers and models

    A shallow embedding of [django_multitenant/fields.py] and
    [django_multitenant/mixins.py].

    Layout of the development:
    - [Py]      the Python values the code handles, with their truth value;
    - [Orm]     the slice of the object-relational mapper (Django) the code
                calls into: querysets, where-nodes, field constructors,
                the base [save] / [_do_update] / [__init__] of a model;
    - [Utils]   the helpers imported from [django_multitenant.utils],
                [.query] and [.deletion];
    - [TenantForeignKey], [TenantOneToOneField], [TenantManagerMixin],
      [TenantModelMixin]   the classes of the two source files;
    - the properties, after all definitions. *)

From Stdlib Require Import ZArith String List Bool Lia.
From stdpp Require Import base option gmap strings list.

Local Open Scope string_scope.
Local Open Scope list_scope.

(** ** Python values *)

Module Py.

(** Scalars and flat lists are all the code distinguishes: a tenant value is
    a scalar identifier or a list of them, a keyword argument is a flag, a
    number or a name. *)
Inductive atom : Type :=
| ABool (b : bool)
| AInt (z : Z)
| AStr (s : string).

Inductive value : Type :=
| VNone
| VAtom (a : atom)
| VList (l : list atom).

#[global] Instance atom_eq_dec : EqDecision atom.
Proof. solve_decision. Defined.

#[global] Instance value_eq_dec : EqDecision value.
Proof. solve_decision. Defined.

Definition VTrue : value := VAtom (ABool true).
Definition VFalse : value := VAtom (ABool false).
Definition VInt (z : Z) : value := VAtom (AInt z).
Definition VStr (s : string) : value := VAtom (AStr s).

(** [bool(a)] *)
Definition truthy_atom (a : atom) : bool :=
  match a with
  | ABool b => b
  | AInt z => negb (Z.eqb z 0)
  | AStr s => negb (String.eqb s "")
  end.

(** [bool(v)]: what [if v:] and [not v] test. *)
Definition truthy (v : value) : bool :=
  match v with
  | VNone => false
  | VAtom a => truthy_atom a
  | VList l => negb (Nat.eqb (length l) 0)
  end.

(** [isinstance(v, list)] *)
Definition is_list (v : value) : bool :=
  match v with
  | VList _ => true
  | _ => false
  end.

(** [v is None] *)
Definition is_none (v : value) : bool :=
  match v with
  | VNone => true
  | _ => false
  end.

(** Exceptions raised on the paths modelled here. *)
Inductive exn : Type :=
| ValueError (args : list string)
| TypeError (msg : string)
| IndexError (msg : string)
| AttributeError (msg : string)
| IntegrityError (msg : string)
| DatabaseError (msg : string).

Inductive result (A : Type) : Type :=
| Ok (a : A)
| Raise (e : exn).

Arguments Ok {A} a.
Arguments Raise {A} e.

End Py.
Export Py.

(** ** The object-relational mapper

    The mapper itself is the framework the two files extend; this module
    fixes the behaviour of the extension points they override or call:
    intersecting a queryset with keyword filters, evaluating and updating
    it, where-nodes, the joining columns of a foreign key, the base
    [__init__], [save] and [_do_update] of a model and the constructors of
    the field classes. *)

Module Orm.

(** A column of a table as the mapper describes it ([Field.name],
    [Field.column], [Field.unique], [Field.primary_key]). *)
Record DbField : Type := {
  field_name : string;
  column : string;
  field_unique : bool;
  field_primary_key : bool;
}.

#[global] Instance DbField_eq_dec : EqDecision DbField.
Proof. solve_decision. Defined.

(** An entity type that inherits [TenantModelMixin]: its class attribute
    [tenant_id] names the tenant column. *)
Record Model : Type := {
  __name__ : string;
  db_table : string;
  tenant_id : string;
  pk_attname : string;
  meta_fields : list DbField;
}.

(** A row of a table, and an instance of a model: attribute name to value.
    A missing attribute reads as [None]. *)
Abbreviation Row := (gmap string value).

Record ModelObj : Type := {
  obj_class : Model;
  obj_attrs : gmap string value;
}.

Definition getattr (self : ModelObj) (attr : string) : value :=
  default VNone (obj_attrs self !! attr).

Definition setattr (self : ModelObj) (attr : string) (v : value) : ModelObj :=
  {| obj_class := obj_class self; obj_attrs := <[attr := v]> (obj_attrs self) |}.

(** [self.pk] *)
Definition pk (self : ModelObj) : value :=
  getattr self (pk_attname (obj_class self)).

(** *** Logging *)

Inductive level : Type := DEBUG | INFO | WARNING | ERROR.

Inductive logarg : Type :=
| ArgStr (s : string)
| ArgObj (o : ModelObj).

Record LogRecord : Type := {
  log_level : level;
  log_msg : string;
  log_args : list logarg;
}.

(** *** Patchable class attributes

    [DeleteQuery.get_compiler] holds a function object: the mapper's own or
    a wrapper around another one; [Collector.related_objects] holds the
    mapper's collector step or the one of [django_multitenant.deletion]. *)
Inductive func : Type :=
| builtin_get_compiler
| wrapper (base_get_compiler : func).

Inductive collector : Type :=
| builtin_related_objects
| tenant_related_objects.

(** *** The process: tenant context cell, log, tables, patchable attributes *)
Record World : Type := {
  tenant : value;
  log : list LogRecord;
  db : gmap string (list Row);
  DeleteQuery_get_compiler : func;
  Collector_related_objects : collector;
}.

Definition set_log (l : list LogRecord) (w : World) : World :=
  {| tenant := tenant w; log := l; db := db w;
     DeleteQuery_get_compiler := DeleteQuery_get_compiler w;
     Collector_related_objects := Collector_related_objects w |}.

Definition set_db (d : gmap string (list Row)) (w : World) : World :=
  {| tenant := tenant w; log := log w; db := d;
     DeleteQuery_get_compiler := DeleteQuery_get_compiler w;
     Collector_related_objects := Collector_related_objects w |}.

Definition set_patches (f : func) (c : collector) (w : World) : World :=
  {| tenant := tenant w; log := log w; db := db w;
     DeleteQuery_get_compiler := f;
     Collector_related_objects := c |}.

(** *** Computations: state passing with exceptions *)
Definition M (A : Type) : Type := World -> result A * World.

Definition ret {A} (a : A) : M A := fun w => (Ok a, w).

Definition bind {A B} (c : M A) (k : A -> M B) : M B :=
  fun w =>
    match c w with
    | (Ok a, w') => k a w'
    | (Raise e, w') => (Raise e, w')
    end.

Definition raise {A} (e : exn) : M A := fun w => (Raise e, w).

Definition gets {A} (f : World -> A) : M A := fun w => (Ok (f w), w).

Definition modify (f : World -> World) : M unit := fun w => (Ok tt, f w).

#[global] Instance M_ret : MRet M := @ret.
#[global] Instance M_bind : MBind M := fun A B k c => bind c k.

(** [logger.warning(msg, *args)] *)
Definition logger_warning (msg : string) (args : list logarg) : M unit :=
  modify (fun w =>
    set_log (log w ++ [{| log_level := WARNING; log_msg := msg; log_args := args |}]) w).

(** *** Querysets *)

(** A queryset is its model and the keyword dictionaries of the [filter]
    calls made on it so far; a row belongs to it when it satisfies all. *)
Record QuerySet : Type := {
  qs_model : Model;
  qs_filters : list (gmap string value);
}.

(** [QuerySet(model)] *)
Definition QuerySet_new (m : Model) : QuerySet :=
  {| qs_model := m; qs_filters := [] |}.

(** [qs.filter( **kwargs )] *)
Definition qs_filter (qs : QuerySet) (kwargs : gmap string value) : QuerySet :=
  {| qs_model := qs_model qs; qs_filters := qs_filters qs ++ [kwargs] |}.

(** The keyword [pk] is an alias of the primary-key attribute. *)
Definition resolve_key (m : Model) (k : string) : string :=
  if String.eqb k "pk" then pk_attname m else k.

Definition cell (r : Row) (c : string) : value := default VNone (r !! c).

(** A filter value matches a stored value when they are equal; a
    list-valued one when the stored value is one of its members. *)
Definition matches (v stored : value) : bool :=
  match v with
  | VList l => existsb (fun a => bool_decide (stored = VAtom a)) l
  | _ => bool_decide (stored = v)
  end.

Definition row_sat (m : Model) (kwargs : gmap string value) (r : Row) : bool :=
  forallb (fun kv => matches kv.2 (cell r (resolve_key m kv.1))) (map_to_list kwargs).

Definition qs_sat (qs : QuerySet) (r : Row) : bool :=
  forallb (fun kwargs => row_sat (qs_model qs) kwargs r) (qs_filters qs).

Definition table (w : World) (m : Model) : list Row :=
  default [] (db w !! db_table m).

(** The rows a queryset evaluates to. *)
Definition qs_rows (qs : QuerySet) (w : World) : list Row :=
  List.filter (qs_sat qs) (table w (qs_model qs)).

(** [qs.exists()] *)
Definition qs_exists (qs : QuerySet) : M bool :=
  gets (fun w => negb (Nat.eqb (length (qs_rows qs w)) 0)).

Definition assign (values : list (string * value)) (r : Row) : Row :=
  fold_left (fun acc kv => <[kv.1 := kv.2]> acc) values r.

(** [qs._update(values)]: rewrites the rows of the queryset, returns how
    many there were. *)
Definition qs_update (qs : QuerySet) (values : list (string * value)) : M nat :=
  fun w =>
    let n := length (qs_rows qs w) in
    let upd := fun r : Row => if qs_sat qs r then assign values r else r in
    (Ok n, set_db (alter (List.map upd) (db_table (qs_model qs)) (db w)) w).

(** *** Calls with positional and keyword arguments *)

#[global] Instance result_ret : MRet result := @Ok.
#[global] Instance result_bind : MBind result :=
  fun A B k r => match r with Ok a => k a | Raise e => Raise e end.
#[global] Instance result_fmap : FMap result :=
  fun A B g r => match r with Ok a => Ok (g a) | Raise e => Raise e end.

(** Binding of a call [f( *args, **kwargs )] to the named parameters of
    [f]: a parameter takes the positional value at its place, else the
    keyword of its name, else its default; what is left of [kwargs] goes to
    the [**kwargs] of [f]. *)
Fixpoint bind_params (params : list (string * option value)) (args : list value)
    (kwargs : gmap string value) : result (list value * gmap string value) :=
  match params, args with
  | [], [] => Ok ([], kwargs)
  | [], _ :: _ => Raise (TypeError "too many positional arguments")
  | (p, _) :: params', a :: args' =>
      match kwargs !! p with
      | Some _ => Raise (TypeError "got multiple values for argument")
      | None =>
          '(vs, rest) ← bind_params params' args' kwargs;
          Ok (a :: vs, rest)
      end
  | (p, dflt) :: params', [] =>
      match kwargs !! p, dflt with
      | Some v, _ =>
          '(vs, rest) ← bind_params params' [] (delete p kwargs);
          Ok (v :: vs, rest)
      | None, Some d =>
          '(vs, rest) ← bind_params params' [] kwargs;
          Ok (d :: vs, rest)
      | None, None => Raise (TypeError "missing a required argument")
      end
  end.

(** *** The base class of models *)

(** The signature of the overridable method [_do_update]. *)
Definition do_update_method : Type :=
  ModelObj -> QuerySet -> string -> value -> list (string * value) ->
  option (list string) -> bool -> M bool.

(** [Model._do_update], with [Meta.select_on_save] at its default. *)
Definition Model_do_update : do_update_method :=
  fun self base_qs using_ pk_val values update_fields forced_update =>
    let filtered := qs_filter base_qs {["pk" := pk_val]} in
    match values with
    | [] =>
        found ← qs_exists filtered;
        mret (bool_decide (is_Some update_fields) || found)
    | _ :: _ =>
        n ← qs_update filtered values;
        mret (negb (Nat.eqb n 0))
    end.

(** The key column of a table is unique. *)
Definition has_key (rows : list Row) (pk_column : string) (k : value) : bool :=
  existsb (fun r => bool_decide (cell r pk_column = k)) rows.

(** The key the database hands out to a row that has none: one past the
    largest key in the table. *)
Definition next_key (rows : list Row) (pk_column : string) : Z :=
  (1 + fold_right (fun r acc =>
                     match cell r pk_column with
                     | VAtom (AInt z) => Z.max z acc
                     | _ => acc
                     end) 0 rows)%Z.

(** The INSERT of [Model._save_table]: a row without a key gets one from
    the database; a row whose key is already in the table is refused with
    [IntegrityError]. *)
Definition insert_row (self : ModelObj) : M ModelObj :=
  fun w =>
    let m := obj_class self in
    let rows := table w m in
    if is_none (pk self)
    then
      let self' := setattr self (pk_attname m) (VInt (next_key rows (pk_attname m))) in
      (Ok self', set_db (<[db_table m := rows ++ [obj_attrs self']]> (db w)) w)
    else if has_key rows (pk_attname m) (pk self)
    then (Raise (IntegrityError "UNIQUE constraint failed"), w)
    else (Ok self, set_db (<[db_table m := rows ++ [obj_attrs self]]> (db w)) w).

Definition non_pk_values (self : ModelObj) : list (string * value) :=
  List.filter (fun kv => negb (String.eqb kv.1 (pk_attname (obj_class self))))
              (map_to_list (obj_attrs self)).

(** The parameters of [Model.save(force_insert=False, force_update=False,
    using=None, update_fields=None)]. *)
Record SaveOptions : Type := {
  opt_force_insert : value;
  opt_force_update : value;
  opt_using : value;
  opt_update_fields : value;
}.

Definition bind_save_options (args : list value) (kwargs : gmap string value)
    : result SaveOptions :=
  '(vs, rest) ← bind_params
      [("force_insert", Some VFalse); ("force_update", Some VFalse);
       ("using", Some VNone); ("update_fields", Some VNone)] args kwargs;
  match map_to_list rest, vs with
  | [], [v_force_insert; v_force_update; v_using; v_update_fields] =>
      Ok {| opt_force_insert := v_force_insert; opt_force_update := v_force_update;
            opt_using := v_using; opt_update_fields := v_update_fields |}
  | _, _ => Raise (TypeError "save() got an unexpected keyword argument")
  end.

(** [frozenset(update_fields)]: the members of a list, the characters of a
    string; a number is not iterable. *)
Definition update_field_names (v : value) : result (list atom) :=
  match v with
  | VNone => Ok []
  | VList l => Ok l
  | VAtom (AStr s) =>
      Ok (List.map (fun c => AStr (String c EmptyString)) (list_ascii_of_string s))
  | VAtom _ => Raise (TypeError "object is not iterable")
  end.

(** The names [update_fields] may hold: the name and the attribute name of
    every field that is not the primary key. *)
Definition is_updatable_field (cls : Model) (a : atom) : bool :=
  match a with
  | AStr n =>
      existsb (fun f => negb (field_primary_key f)
                        && (String.eqb (field_name f) n || String.eqb (column f) n))
              (meta_fields cls)
  | _ => false
  end.

Definition in_update_fields (cls : Model) (names : list atom) (attname : string) : bool :=
  existsb (fun a =>
             match a with
             | AStr n =>
                 String.eqb n attname
                 || existsb (fun f => String.eqb (column f) attname
                                      && String.eqb (field_name f) n)
                            (meta_fields cls)
             | _ => false
             end) names.

Definition atom_strings (names : list atom) : list string :=
  omap (fun a => match a with AStr n => Some n | _ => None end) names.

(** [using or router.db_for_write(...)] *)
Definition using_alias (o : SaveOptions) : string :=
  match opt_using o with
  | VAtom (AStr alias) => if truthy (opt_using o) then alias else "default"
  | _ => "default"
  end.

(** [Model._save_table], after [save] and [save_base] have checked the
    options: an instance with a key is first updated through its own
    [_do_update] (the method is looked up on the instance, so an override
    is the one called) from the unfiltered base manager, and inserted when
    no row was updated; one without a key is inserted. *)
Definition save_table (do_update : do_update_method) (self : ModelObj)
    (o : SaveOptions) (names : list atom) : M ModelObj :=
  let cls := obj_class self in
  let pk_val := pk self in
  let pk_set := negb (is_none pk_val) in
  if negb pk_set && (truthy (opt_force_update o) || truthy (opt_update_fields o))
  then raise (ValueError ["Cannot force an update in save() with no primary key."])
  else if pk_set && negb (truthy (opt_force_insert o))
  then
    let values :=
      if truthy (opt_update_fields o)
      then List.filter (fun kv => in_update_fields cls names kv.1) (non_pk_values self)
      else non_pk_values self in
    let update_fields :=
      if is_none (opt_update_fields o) then None else Some (atom_strings names) in
    let forced_update := truthy (opt_update_fields o) || truthy (opt_force_update o) in
    updated ← do_update self (QuerySet_new cls) (using_alias o) pk_val values
                        update_fields forced_update;
    if truthy (opt_force_update o) && negb updated
    then raise (DatabaseError "Forced update did not affect any rows.")
    else if truthy (opt_update_fields o) && negb updated
    then raise (DatabaseError "Save with update_fields did not affect any rows.")
    else if (updated : bool) then mret self else insert_row self
  else insert_row self.

(** [Model.save( *args, **kwargs )]: binds the options, refuses
    [force_insert] together with an update, returns at once for an empty
    [update_fields], refuses names that are no fields, then saves. *)
Definition Model_save (do_update : do_update_method) (self : ModelObj)
    (args : list value) (kwargs : gmap string value) : M ModelObj :=
  match bind_save_options args kwargs with
  | Raise e => raise e
  | Ok o =>
      if truthy (opt_force_insert o)
         && (truthy (opt_force_update o) || truthy (opt_update_fields o))
      then raise (ValueError ["Cannot force both insert and updating in model saving."])
      else if negb (is_none (opt_update_fields o)) && negb (truthy (opt_update_fields o))
      then mret self
      else
        match update_field_names (opt_update_fields o) with
        | Raise e => raise e
        | Ok names =>
            if negb (forallb (is_updatable_field (obj_class self)) names)
            then raise (ValueError
                   ["The following fields do not exist in this model or are m2m fields: %s"])
            else save_table do_update self o names
        end
  end.

(** Whether a keyword of [Model.__init__] names one of the given fields,
    by its name or its attribute name. *)
Definition names_field (fields : list DbField) (k : string) : bool :=
  existsb (fun f => String.eqb (field_name f) k || String.eqb (column f) k) fields.

(** [Model.__init__( *args, **kwargs )]: positional values fill the fields
    in their order; a keyword fills the field it names, and is refused
    with [TypeError] when that field was filled positionally or when it
    names no field. *)
Definition Model_init (cls : Model) (args : list value)
    (kwargs : gmap string value) : M ModelObj :=
  if Nat.ltb (length (meta_fields cls)) (length args)
  then raise (IndexError "Number of args exceeds number of fields")
  else
    let filled := take (length args) (meta_fields cls) in
    let positional : gmap string value :=
      list_to_map (zip (List.map column filled) args) in
    if existsb (fun kv => names_field filled kv.1) (map_to_list kwargs)
    then raise (TypeError "got both positional and keyword arguments for field")
    else if negb (forallb (fun kv => names_field (meta_fields cls) kv.1)
                          (map_to_list kwargs))
    then raise (TypeError "got an unexpected keyword argument")
    else mret {| obj_class := cls; obj_attrs := kwargs ∪ positional |}.

(** *** Where-nodes *)

(** [field.get_col(alias)] *)
Record Col : Type := {
  col_alias : string;
  col_target : DbField;
}.

(** [field.get_lookup("exact")(lhs, rhs)] *)
Inductive Lookup : Type :=
| Exact (lhs : Col) (rhs : value).

Inductive WhereNode : Type :=
| Node (connector : string) (children : list WhereChild)
with WhereChild : Type :=
| Leaf (l : Lookup)
| Sub (n : WhereNode).

(** Building the lookup, [field.get_lookup("exact")(lhs, rhs)], prepares
    [rhs] as one value of the field, here a key column: a list is not one
    and is refused with [TypeError]. *)
Definition Exact_new (lhs : Col) (rhs : value) : result Lookup :=
  if is_list rhs
  then Raise (TypeError "Field expected a number but got a list")
  else Ok (Exact lhs rhs).

(** [WhereNode()] *)
Definition WhereNode_new (_ : unit) : WhereNode := Node "AND" [].

(** [node.add(data, conn_type)] *)
Definition WhereNode_add (node : WhereNode) (data : Lookup) (conn_type : string)
    : WhereNode :=
  match node with
  | Node c ch =>
      if String.eqb c conn_type
      then Node c (ch ++ [Leaf data])
      else Node conn_type [Sub (Node c ch); Leaf data]
  end.

(** *** Managers *)

Module Manager.
Record t : Type := {
  model : Model;
  _queryset_class : Model -> QuerySet;
}.
End Manager.

(** *** Foreign keys *)

Module ForeignKey.
(** [name], [model] (the entity type the relation is written on),
    [related_model] (the entity type it points to) and the pairs
    [(local field, referenced field)]. *)
Record t : Type := {
  name : string;
  model : Model;
  related_model : Model;
  related_fields : list (DbField * DbField);
}.
End ForeignKey.

Definition reverse_related_fields (self : ForeignKey.t) : list (DbField * DbField) :=
  List.map (fun p => (p.2, p.1)) (ForeignKey.related_fields self).

(** [ForeignObject.get_joining_columns] *)
Definition ForeignObject_get_joining_columns (self : ForeignKey.t)
    (reverse_join : bool) : list (string * string) :=
  let source :=
    if reverse_join then reverse_related_fields self
    else ForeignKey.related_fields self in
  List.map (fun p => (column p.1, column p.2)) source.

(** [ForeignObject.get_reverse_related_filter(obj)] without the extra
    descriptor filter: each referenced column holds the instance's value
    of the local column. *)
Definition base_related_filter (self : ForeignKey.t) (instance : ModelObj)
    : gmap string value :=
  list_to_map (List.map (fun p => (column p.2, getattr instance (column p.1)))
                        (ForeignKey.related_fields self)).

(** The rows the forward descriptor fetches for [instance.fieldname]:
    those of the target's queryset that satisfy the key equality of the
    relation and the extra descriptor filter. *)
Definition related_object_rows (self : ForeignKey.t) (instance : ModelObj)
    (extra : gmap string value) (w : World) : list Row :=
  qs_rows (qs_filter (qs_filter (QuerySet_new (ForeignKey.related_model self))
                                (base_related_filter self instance))
                     extra) w.

(** [Join.as_sql]: one equality per joining column pair, between the
    column of the parent alias and the column of the joined table's alias.
    A forward join over a foreign key takes the pairs of
    [get_joining_columns()], with the alias of [model] as parent. *)
Definition join_conditions (parent_alias table_alias : string)
    (join_cols : list (string * string))
    : list ((string * string) * (string * string)) :=
  List.map (fun p => ((parent_alias, p.1), (table_alias, p.2))) join_cols.

(** A system-check message, by its identifier. *)
Inductive CheckMessage : Type :=
| CheckError (id : string) (msg : string).

(** [ForeignObject._check_unique_target] for a single-column relation:
    [fields.E311] unless the referenced column is unique by itself. *)
Definition ForeignObject_check_unique_target (self : ForeignKey.t)
    : list CheckMessage :=
  if forallb (fun p => field_unique p.2 || field_primary_key p.2)
             (ForeignKey.related_fields self)
  then []
  else [CheckError "fields.E311"
          "must set unique=True because it is referenced by a foreign key."].

(** *** Field constructors *)

(** A relation field once constructed: what it points to, the state
    [Field.__init__] keeps ([_unique], [primary_key]), the attribute
    [tenant_id] of [TenantIDFieldMixin] and the other options. *)
Record RelatedField : Type := {
  to : value;
  on_delete : value;
  to_field : value;
  _unique : value;
  primary_key : value;
  field_tenant_id : value;
  options : gmap string value;
}.

(** The property [Field.unique]: [self._unique or self.primary_key]. *)
Definition unique (f : RelatedField) : value :=
  if truthy (_unique f) then _unique f else primary_key f.

Definition set_field_tenant_id (v : value) (f : RelatedField) : RelatedField :=
  {| to := to f; on_delete := on_delete f; to_field := to_field f;
     _unique := _unique f; primary_key := primary_key f;
     field_tenant_id := v; options := options f |}.

(** The signature of [__init__( *args, **kwargs )] on a field class. *)
Definition init_method : Type :=
  list value -> gmap string value -> result RelatedField.

(** [ForeignKey.__init__(to, on_delete, related_name=None, ...,
    to_field=None, db_constraint=True, **kwargs)] down to
    [Field.__init__], which takes [primary_key=False] and [unique=False]
    from the keywords. *)
Definition ForeignKey_init : init_method :=
  fun args kwargs =>
    '(vs, rest) ← bind_params
        [("to", None); ("on_delete", None); ("related_name", Some VNone);
         ("related_query_name", Some VNone); ("limit_choices_to", Some VNone);
         ("parent_link", Some VFalse); ("to_field", Some VNone);
         ("db_constraint", Some VTrue)] args kwargs;
    match vs with
    | [v_to; v_on_delete; v_related_name; v_related_query_name;
       v_limit_choices_to; v_parent_link; v_to_field; v_db_constraint] =>
        Ok {| to := v_to; on_delete := v_on_delete; to_field := v_to_field;
              _unique := default VFalse (rest !! "unique");
              primary_key := default VFalse (rest !! "primary_key");
              field_tenant_id := VNone;
              options :=
                <["related_name" := v_related_name]>
                (<["related_query_name" := v_related_query_name]>
                (<["limit_choices_to" := v_limit_choices_to]>
                (<["parent_link" := v_parent_link]>
                (<["db_constraint" := v_db_constraint]>
                (delete "unique" (delete "primary_key" rest)))))) |}
    | _ => Raise (TypeError "arity")
    end.

(** [OneToOneField.__init__(to, on_delete, to_field=None, **kwargs)]:
    [kwargs['unique'] = True], then the next [__init__] in the method
    resolution order of the object under construction. *)
Definition OneToOneField_init (super_init : init_method) : init_method :=
  fun args kwargs =>
    '(vs, rest) ← bind_params
        [("to", None); ("on_delete", None); ("to_field", Some VNone)] args kwargs;
    match vs with
    | [v_to; v_on_delete; v_to_field] =>
        let kwargs := <["unique" := VTrue]> rest in
        super_init [v_to; v_on_delete] (<["to_field" := v_to_field]> kwargs)
    | _ => Raise (TypeError "arity")
    end.

(** [AutoField.__init__( *args, **kwargs )]: [kwargs['blank'] = True], then
    [Field.__init__(verbose_name=None, name=None, primary_key=False,
    max_length=None, unique=False, blank=False, ...)]. The sixth
    parameter is [blank], which the keywords always hold by then, so no
    call with more than five positional values binds; the parameters after
    [unique] are kept with the other options. An auto field is no
    relation: [to], [on_delete] and [to_field] stay [None]. *)
Definition AutoField_init : init_method :=
  fun args kwargs =>
    let kwargs := <["blank" := VTrue]> kwargs in
    '(vs, rest) ← bind_params
        [("verbose_name", Some VNone); ("name", Some VNone);
         ("primary_key", Some VFalse); ("max_length", Some VNone);
         ("unique", Some VFalse)] args kwargs;
    match vs with
    | [v_verbose_name; v_name; v_primary_key; v_max_length; v_unique] =>
        Ok {| to := VNone; on_delete := VNone; to_field := VNone;
              _unique := v_unique; primary_key := v_primary_key;
              field_tenant_id := VNone;
              options :=
                <["verbose_name" := v_verbose_name]>
                (<["name" := v_name]>
                (<["max_length" := v_max_length]> rest)) |}
    | _ => Raise (TypeError "arity")
    end.

(** What [Field.deconstruct()] returns: the name of the field, the import
    path of its class, and the positional and keyword arguments that
    construct it again. *)
Record Deconstruction : Type := {
  dec_name : value;
  dec_path : string;
  dec_args : list value;
  dec_kwargs : gmap string value;
}.

(** The signature of [deconstruct()] on a field class. *)
Definition deconstruct_method : Type := RelatedField -> Deconstruction.

(** [OneToOneField.deconstruct]: what the next [deconstruct] in the method
    resolution order returns, without the keyword [unique]. *)
Definition OneToOneField_deconstruct (super_deconstruct : deconstruct_method)
    : deconstruct_method :=
  fun self =>
    let d := super_deconstruct self in
    {| dec_name := dec_name d; dec_path := dec_path d;
       dec_args := dec_args d; dec_kwargs := delete "unique" (dec_kwargs d) |}.

End Orm.
Export Orm.

(** ** Helpers imported by the two files *)

Module Utils.

(** Modelled from the spec: [utils.get_current_tenant], whose file is not
    among the sources. The tenant context is a single cell holding the
    current tenant value or nothing; reading it returns the current value
    or [None] and never fails. *)
Definition get_current_tenant : M value := gets tenant.

(** Modelled from the spec: [utils.set_current_tenant], whose file is not
    among the sources. Setting overwrites the cell; setting [None] clears
    it. *)
Definition set_current_tenant (v : value) : M unit :=
  modify (fun w =>
    {| tenant := v; log := log w; db := db w;
       DeleteQuery_get_compiler := DeleteQuery_get_compiler w;
       Collector_related_objects := Collector_related_objects w |}).

(** Modelled from the spec: [utils.get_current_tenant_value], whose file
    is not among the sources. The value the predicate builder works from:
    the tenant value held by the context, a scalar or a list. *)
Definition get_current_tenant_value : M value := gets tenant.

(** Modelled from the spec: [utils.get_tenant_column], whose file is not
    among the sources. The name of the tenant column of an entity type, as
    written on the type ([tenant_id], read through [tenant_field]); it does
    not depend on the context. *)
Definition get_tenant_column (m : Model) : string := tenant_id m.

(** Modelled from the spec: [utils.get_tenant_field], whose file is not
    among the sources. The attribute of the entity type that is its tenant
    discriminator: the field stored in the tenant column, if there is one. *)
Definition get_tenant_field (m : Model) : option DbField :=
  List.find (fun f => String.eqb (column f) (get_tenant_column m)) (meta_fields m).

(** Modelled from the spec: [utils.get_tenant_filters], whose file is not
    among the sources. The mapping from the tenant column of the entity
    type to the current tenant value when a tenant is set, the empty
    mapping when none is. *)
Definition get_tenant_filters (m : Model) : M (gmap string value) :=
  current_tenant_value ← get_current_tenant_value;
  mret (if truthy current_tenant_value
        then {[ get_tenant_column m := current_tenant_value ]}
        else ∅).

(** Modelled from the spec: [query.wrap_get_compiler], whose file is not
    among the sources. The function it returns wraps the one it is given
    and carries the marker attribute. *)
Definition wrap_get_compiler (base_get_compiler : func) : func :=
  wrapper base_get_compiler.

(** [hasattr(f, attr)] on the function objects above: only the wrapper has
    an attribute of its own, the marker [_sign]. *)
Definition hasattr (f : func) (attr : string) : bool :=
  match f with
  | builtin_get_compiler => false
  | wrapper _ => String.eqb attr "_sign"
  end.

(** Modelled from the spec: [deletion.related_objects], whose file is not
    among the sources; only its identity matters here. *)
Definition related_objects : collector := tenant_related_objects.

(** Modelled from the spec: what calling [DeleteQuery.get_compiler] does to
    the DELETE being compiled. The mapper's own function leaves its WHERE
    clause alone; a wrapper runs the function it wraps, then appends the
    tenant predicate of the target entity type whenever a tenant is
    current. The query is given by its model and its WHERE conjuncts. *)
Fixpoint call_get_compiler (f : func) (query : QuerySet) : M QuerySet :=
  match f with
  | builtin_get_compiler => mret query
  | wrapper base_get_compiler =>
      compiled ← call_get_compiler base_get_compiler query;
      current_tenant ← get_current_tenant;
      if truthy current_tenant
      then
        kwargs ← get_tenant_filters (qs_model compiled);
        mret (qs_filter compiled kwargs)
      else mret compiled
  end.

(** [DeleteQuery(model).get_compiler(...)] as the process has it patched. *)
Definition compile_delete (query : QuerySet) : M QuerySet :=
  f ← gets DeleteQuery_get_compiler;
  call_get_compiler f query.

End Utils.
Export Utils.

(** ** fields.py *)

Module TenantIDFieldMixin.

(** [self.tenant_id = kwargs.pop("tenant_id", None)], then the next
    [__init__] in the method resolution order. The constructors below
    build the rest of the field and do not assign [tenant_id] themselves
    (neither [ForeignKey] nor [AutoField] has such an attribute), so the
    attribute set before they run is the one on the field they return. *)
Definition __init__ (super_init : init_method) : init_method :=
  fun args kwargs =>
    let tenant_id := default VNone (kwargs !! "tenant_id") in
    let kwargs := delete "tenant_id" kwargs in
    f ← super_init args kwargs;
    mret (set_field_tenant_id tenant_id f).

(** [kwargs["tenant_id"] = self.tenant_id] on what the next [deconstruct]
    in the method resolution order returns. *)
Definition deconstruct (super_deconstruct : deconstruct_method) : deconstruct_method :=
  fun self =>
    let d := super_deconstruct self in
    let kwargs := <["tenant_id" := field_tenant_id self]> (dec_kwargs d) in
    {| dec_name := dec_name d; dec_path := dec_path d;
       dec_args := dec_args d; dec_kwargs := kwargs |}.

End TenantIDFieldMixin.

Module TenantForeignKey.

Definition get_joining_columns (self : ForeignKey.t) (reverse_join : bool)
    : list (string * string) :=
  let default_columns := ForeignObject_get_joining_columns self reverse_join in
  let lhs_tenant_id := get_tenant_column (ForeignKey.model self) in
  let rhs_tenant_id := get_tenant_column (ForeignKey.related_model self) in
  default_columns ++ [(lhs_tenant_id, rhs_tenant_id)].


Definition get_extra_restriction (self : ForeignKey.t)
    (where_class : unit -> WhereNode) (alias related_alias : string)
    : M (option WhereNode) :=
  current_tenant_value ← get_current_tenant_value;
  if negb (truthy current_tenant_value)
  then mret None
  else
    match get_tenant_field (ForeignKey.model self) with
    | None => raise (AttributeError "get_col")
    | Some lhs_tenant_field =>
        let lookup_lhs :=
          {| col_alias := related_alias; col_target := lhs_tenant_field |} in
        match Exact_new lookup_lhs current_tenant_value with
        | Raise e => raise e
        | Ok lookup =>
            let condition := where_class tt in
            let condition := WhereNode_add condition lookup "AND" in
            mret (Some condition)
        end
    end.

Definition _check_unique_target (self : ForeignKey.t) : list CheckMessage := [].

End TenantForeignKey.

Module TenantOneToOneField.

(** The class is written [(models.OneToOneField, TenantIDFieldMixin,
    TenantForeignKey)]; its method resolution order is
    [TenantOneToOneField, OneToOneField, TenantIDFieldMixin,
    TenantForeignKey, ForeignKey, ...], and [TenantForeignKey] has no
    [__init__] of its own. *)
Definition super_init : init_method :=
  OneToOneField_init (TenantIDFieldMixin.__init__ ForeignKey_init).

Definition __init__ : init_method :=
  fun args kwargs =>
    let kwargs := <["unique" := VFalse]> kwargs in
    super_init args kwargs.

End TenantOneToOneField.

Module TenantPrimaryKey.

(** The class is written [(TenantIDFieldMixin, models.AutoField)]: the next
    [__init__] after its own is the mixin's, then the auto field's. *)
Definition super_init : init_method :=
  TenantIDFieldMixin.__init__ AutoField_init.

Definition __init__ : init_method :=
  fun args kwargs =>
    let kwargs := <["primary_key" := VTrue]> kwargs in
    super_init args kwargs.

Definition _check_primary_key (self : RelatedField) : list CheckMessage := [].

End TenantPrimaryKey.

(** ** mixins.py *)

Module TenantManagerMixin.

Definition get_queryset (self : Manager.t) : M QuerySet :=
  let queryset := Manager._queryset_class self (Manager.model self) in
  current_tenant ← get_current_tenant;
  if truthy current_tenant
  then
    kwargs ← get_tenant_filters (Manager.model self);
    mret (qs_filter queryset kwargs)
  else mret queryset.

End TenantManagerMixin.

Module TenantModelMixin.

Definition tenant_field (self : ModelObj) : string := tenant_id (obj_class self).

Definition tenant_value (self : ModelObj) : value := getattr self (tenant_field self).

Definition __init__ (cls : Model) (args : list value) (kwargs : gmap string value)
    : M ModelObj :=
  get_compiler ← gets DeleteQuery_get_compiler;
  _ ← (if negb (hasattr get_compiler "_sign")
       then modify (set_patches (wrap_get_compiler get_compiler) related_objects)
       else mret tt);
  Model_init cls args kwargs.

(** The double quotation mark, character 34. *)
Definition double_quote : string :=
  String (Ascii.Ascii false true false false false true false false) EmptyString.

(** The text of the warning. *)
Definition update_warning : string :=
  String.append "Attempting to update %s instance "
    (String.append double_quote
      (String.append "%s"
        (String.append double_quote
          " without a current tenant set. This may cause issues in a partitioned environment. Recommend calling set_current_tenant() before performing this operation."))).

Definition _do_update : do_update_method :=
  fun self base_qs using_ pk_val values update_fields forced_update =>
    let model := qs_model base_qs in
    current_tenant ← get_current_tenant;
    base_qs ←
      (if truthy current_tenant
       then
         kwargs ← get_tenant_filters (obj_class self);
         mret (qs_filter base_qs kwargs)
       else
         _ ← logger_warning update_warning
               [ArgStr (__name__ (obj_class self)); ArgObj self];
         mret base_qs);
    Model_do_update self base_qs using_ pk_val values update_fields forced_update.

Definition save (self : ModelObj) (args : list value) (kwargs : gmap string value)
    : M ModelObj :=
  tenant_value ← get_current_tenant_value;
  let self :=
    if negb (truthy (pk self)) && truthy tenant_value && negb (is_list tenant_value)
    then setattr self (tenant_field self) tenant_value
    else self in
  Model_save _do_update self args kwargs.

End TenantModelMixin.

(** ** A small shop schema

    [Store] is the tenant root (its tenant column is its key [id]);
    [Product] belongs to a store through [store_id], its tenant column. *)

Module Shop.

Definition id_field : DbField :=
  {| field_name := "id"; column := "id";
     field_unique := false; field_primary_key := true |}.

Definition name_field : DbField :=
  {| field_name := "name"; column := "name";
     field_unique := false; field_primary_key := false |}.

Definition store_field : DbField :=
  {| field_name := "store"; column := "store_id";
     field_unique := false; field_primary_key := false |}.

Definition Store : Model :=
  {| __name__ := "Store"; db_table := "shop_store"; tenant_id := "id";
     pk_attname := "id"; meta_fields := [id_field; name_field] |}.

Definition Product : Model :=
  {| __name__ := "Product"; db_table := "shop_product"; tenant_id := "store_id";
     pk_attname := "id"; meta_fields := [id_field; store_field; name_field] |}.

(** [Product.store = TenantForeignKey(Store, ...)] *)
Definition product_store : ForeignKey.t :=
  {| ForeignKey.name := "store"; ForeignKey.model := Product;
     ForeignKey.related_model := Store;
     ForeignKey.related_fields := [(store_field, id_field)] |}.

(** [Product.objects] *)
Definition products : Manager.t :=
  {| Manager.model := Product; Manager._queryset_class := QuerySet_new |}.

(** Product 1 of store 7, as stored and as loaded. *)
Definition row_1 : Row := {[ "id" := VInt 1; "store_id" := VInt 7 ]}.

Definition product_1 : ModelObj := {| obj_class := Product; obj_attrs := row_1 |}.

(** A product not saved yet, with no store given. *)
Definition new_product : ModelObj :=
  {| obj_class := Product; obj_attrs := {[ "name" := VStr "tea" ]} |}.

(** [Purchase.product = TenantForeignKey(Product, ...)]: in the sharded
    schema the key of a product is the pair (store, id), so the column the
    relation references is not unique by itself. *)
Definition product_id_field : DbField :=
  {| field_name := "id"; column := "id";
     field_unique := false; field_primary_key := false |}.

Definition product_field : DbField :=
  {| field_name := "product"; column := "product_id";
     field_unique := false; field_primary_key := false |}.

Definition Purchase : Model :=
  {| __name__ := "Purchase"; db_table := "shop_purchase"; tenant_id := "store_id";
     pk_attname := "id"; meta_fields := [id_field; store_field; product_field] |}.

Definition purchase_product : ForeignKey.t :=
  {| ForeignKey.name := "product"; ForeignKey.model := Purchase;
     ForeignKey.related_model := Product;
     ForeignKey.related_fields := [(product_field, product_id_field)] |}.

(** A store not saved yet. *)
Definition new_store : ModelObj :=
  {| obj_class := Store; obj_attrs := {[ "name" := VStr "corner" ]} |}.

(** [Purchase.product] as a constructed field, sharded by [store_id], and
    a [deconstruct] of relation fields that reports the target and
    [on_delete] as keywords. *)
Definition purchase_product_field : RelatedField :=
  {| to := VStr "Product"; on_delete := VStr "CASCADE"; to_field := VNone;
     _unique := VFalse; primary_key := VFalse;
     field_tenant_id := VStr "store_id"; options := ∅ |}.

Definition relation_deconstruct : deconstruct_method :=
  fun self =>
    {| dec_name := VStr "product"; dec_path := "django.db.models.ForeignKey";
       dec_args := [];
       dec_kwargs := {[ "to" := to self; "on_delete" := on_delete self ]} |}.

(** The key of [Purchase] as a constructed tenant primary key, and a
    [deconstruct] of key fields that reports [primary_key]. *)
Definition purchase_key_field : RelatedField :=
  {| to := VNone; on_delete := VNone; to_field := VNone;
     _unique := VFalse; primary_key := VTrue;
     field_tenant_id := VStr "store_id"; options := ∅ |}.

Definition key_deconstruct : deconstruct_method :=
  fun self =>
    {| dec_name := VStr "id"; dec_path := "django.db.models.AutoField";
       dec_args := []; dec_kwargs := {[ "primary_key" := primary_key self ]} |}.

(** Tenant models constructed one after the other. *)
Definition constructions : list (Model * list value * gmap string value) :=
  [(Product, [], ∅); (Store, [VInt 7], ∅); (Purchase, [], {[ "store_id" := VInt 7 ]})].

(** Purchase 1 of product 1, in store 7. *)
Definition purchase_1 : ModelObj :=
  {| obj_class := Purchase;
     obj_attrs := {[ "id" := VInt 1; "store_id" := VInt 7; "product_id" := VInt 1 ]} |}.

(** Store 7, and a process that holds it beside product 1. *)
Definition store_7 : Row := {[ "id" := VInt 7; "name" := VStr "corner" ]}.

Definition stocked (t : value) : World :=
  {| tenant := t; log := [];
     db := {[ "shop_product" := [row_1]; "shop_store" := [store_7] ]};
     DeleteQuery_get_compiler := builtin_get_compiler;
     Collector_related_objects := builtin_related_objects |}.

(** A process that has constructed no tenant model yet, holding product 1,
    with [t] in the tenant context. *)
Definition process (t : value) : World :=
  {| tenant := t; log := [];
     db := {[ "shop_product" := [row_1] ]};
     DeleteQuery_get_compiler := builtin_get_compiler;
     Collector_related_objects := builtin_related_objects |}.

End Shop.

(** Constructing tenant models one after the other: the process after all
    of [TenantModelMixin.__init__(cls, *args, **kwargs)] have run. *)
Definition construct_all (calls : list (Model * list value * gmap string value))
    (w : World) : World :=
  fold_left (fun w c => (TenantModelMixin.__init__ c.1.1 c.1.2 c.2 w).2) calls w.

(** A pair of joining columns turned round. *)
Definition swap_pair (p : string * string) : string * string := (p.2, p.1).

(** The test the UPDATE issued by [TenantModelMixin._do_update] under a
    current tenant makes on a row: it belongs to [base_qs], carries the
    tenant value of the context and has the key of the instance. *)
Definition update_target (self : ModelObj) (base_qs : QuerySet) (pk_val : value)
    (w : World) (r : Row) : bool :=
  let m := qs_model base_qs in
  qs_sat base_qs r
  && matches (tenant w) (cell r (resolve_key m (tenant_id (obj_class self))))
  && matches pk_val (cell r (pk_attname m)).

(** * Properties *)

(** Unfolding of the computations of [M]. *)
Ltac run :=
  cbv [mbind mret M_bind M_ret bind ret gets modify raise
       get_current_tenant get_current_tenant_value get_tenant_filters
       get_tenant_column logger_warning qs_exists].

(** ** Worlds *)

Lemma set_db_same (w : World) : set_db (db w) w = w.
Proof. by destruct w. Qed.

Lemma alter_fixpoint {A} (f : A -> A) (k : string) (m : gmap string A) :
  (forall x, m !! k = Some x -> f x = x) -> alter f k m = m.
Proof.
  intros Hfix. apply map_eq. intros j.
  destruct (decide (k = j)) as [<-|Hne].
  - rewrite lookup_alter_eq. destruct (m !! k) as [x|] eqn:Hk; simpl; [|done].
    by rewrite (Hfix x).
  - by rewrite lookup_alter_ne.
Qed.

(** ** Querysets: a filter call intersects *)

Lemma row_sat_singleton (m : Model) (k : string) (v : value) (r : Row) :
  row_sat m {[ k := v ]} r = matches v (cell r (resolve_key m k)).
Proof.
  unfold row_sat. rewrite map_to_list_singleton. simpl. apply andb_true_r.
Qed.

Lemma row_sat_empty (m : Model) (r : Row) : row_sat m ∅ r = true.
Proof. unfold row_sat. by rewrite map_to_list_empty. Qed.

Lemma qs_sat_filter (qs : QuerySet) (kwargs : gmap string value) (r : Row) :
  qs_sat (qs_filter qs kwargs) r = qs_sat qs r && row_sat (qs_model qs) kwargs r.
Proof.
  unfold qs_sat, qs_filter. simpl. rewrite forallb_app. simpl.
  by rewrite andb_true_r.
Qed.

Lemma filter_andb {A} (f g : A -> bool) (l : list A) :
  List.filter (fun x => f x && g x) l = List.filter g (List.filter f l).
Proof.
  induction l as [|x l IH]; simpl; [done|].
  destruct (f x); simpl; [|done]. destruct (g x); by rewrite IH.
Qed.

Lemma qs_rows_filter (qs : QuerySet) (kwargs : gmap string value) (w : World) :
  qs_rows (qs_filter qs kwargs) w =
  List.filter (row_sat (qs_model qs) kwargs) (qs_rows qs w).
Proof.
  unfold qs_rows. simpl. rewrite <- filter_andb.
  apply List.filter_ext. intros r. apply qs_sat_filter.
Qed.

Lemma filter_none {A} (f : A -> bool) (l : list A) :
  Forall (fun x => f x = false) l -> List.filter f l = [].
Proof.
  induction 1 as [|x l Hx _ IH]; simpl; [done|]. by rewrite Hx.
Qed.

Lemma map_unchanged {A} (f : A -> A) (l : list A) :
  Forall (fun x => f x = x) l -> List.map f l = l.
Proof.
  induction 1 as [|x l Hx _ IH]; simpl; [done|]. by rewrite Hx, IH.
Qed.

(** An update through a queryset that no row of the table belongs to
    touches nothing. *)
Lemma qs_update_no_row (qs : QuerySet) (values : list (string * value)) (w : World) :
  Forall (fun r => qs_sat qs r = false) (table w (qs_model qs)) ->
  qs_update qs values w = (Ok 0%nat, w).
Proof.
  intros Hno. unfold qs_update, qs_rows. rewrite (filter_none _ _ Hno). simpl.
  f_equal. rewrite alter_fixpoint; [apply set_db_same|].
  intros rows Hrows. apply map_unchanged.
  unfold table in Hno. rewrite Hrows in Hno. simpl in Hno.
  eapply Forall_impl; [exact Hno|]. simpl. intros r Hr. by rewrite Hr.
Qed.

(** The base update neither raises nor writes to the log. *)
Lemma Model_do_update_returns self base_qs using_ pk_val values update_fields
    forced_update (w : World) :
  exists (updated : bool) (w' : World),
    Model_do_update self base_qs using_ pk_val values update_fields forced_update w
      = (Ok updated, w')
    /\ log w' = log w /\ tenant w' = tenant w.
Proof.
  unfold Model_do_update. destruct values as [|v values]; run.
  - eauto.
  - unfold qs_update. simpl. eexists _, _. split; [reflexivity|]. by destruct w.
Qed.

(** ** Joins *)

(** C1. For every tenant foreign key written on entity type [model] and
    pointing to [related_model], in either direction of the join,
    [get_joining_columns] returns the joining columns of the base class
    followed by exactly one more pair: the tenant column of [model] and the
    tenant column of [related_model]. The forward join it generates
    therefore equates each local column with the column it references, and
    the tenant column of [model] with the tenant column of
    [related_model]. *)
Theorem get_joining_columns_adds_tenant_pair
    (self : ForeignKey.t) (reverse_join : bool) (a b : string) :
  let lhs := tenant_id (ForeignKey.model self) in
  let rhs := tenant_id (ForeignKey.related_model self) in
  TenantForeignKey.get_joining_columns self reverse_join
    = ForeignObject_get_joining_columns self reverse_join ++ [(lhs, rhs)]
  /\ length (TenantForeignKey.get_joining_columns self reverse_join)
     = S (length (ForeignKey.related_fields self))
  /\ Forall (fun p => In ((a, column p.1), (b, column p.2))
               (join_conditions a b (TenantForeignKey.get_joining_columns self false)))
            (ForeignKey.related_fields self)
  /\ In ((a, lhs), (b, rhs))
        (join_conditions a b (TenantForeignKey.get_joining_columns self false)).
Proof.
  intros lhs rhs. unfold TenantForeignKey.get_joining_columns, get_tenant_column.
  fold lhs rhs. split; [reflexivity|]. split; [|split].
  - rewrite length_app. simpl. unfold ForeignObject_get_joining_columns.
    rewrite length_map. destruct reverse_join.
    + unfold reverse_related_fields. rewrite length_map. lia.
    + lia.
  - apply List.Forall_forall. intros p Hp.
    unfold join_conditions, ForeignObject_get_joining_columns.
    rewrite List.map_app, List.map_map. apply in_or_app. left.
    apply (in_map (fun x => ((a, column x.1), (b, column x.2)))) in Hp. exact Hp.
  - unfold join_conditions. rewrite List.map_app. apply in_or_app. right.
    simpl. by left.
Qed.

(** In the reverse direction the two key columns change places, the two
    tenant columns do not. *)
Lemma get_joining_columns_reverse (self : ForeignKey.t) :
  TenantForeignKey.get_joining_columns self true
  = List.map (fun p => (column p.2, column p.1)) (ForeignKey.related_fields self)
    ++ [(tenant_id (ForeignKey.model self), tenant_id (ForeignKey.related_model self))].
Proof.
  unfold TenantForeignKey.get_joining_columns, ForeignObject_get_joining_columns,
    reverse_related_fields, get_tenant_column.
  by rewrite List.map_map.
Qed.

(** ** Updates *)

Lemma resolve_key_pk (m : Model) : resolve_key m "pk" = pk_attname m.
Proof. reflexivity. Qed.

(** C2. For every update of an instance made while a current tenant is
    set, [_do_update] hands the base update the queryset it was given
    intersected with the tenant filter built from the tenant context as it
    is at that moment: whatever context the instance was loaded under, the
    UPDATE is scoped by the context of the save. When no row with the
    instance's key carries a tenant value matching that context, the
    update affects zero rows: it reports [False] and leaves the process as
    it was. *)
Theorem do_update_scoped_by_current_tenant
    (self : ModelObj) (base_qs : QuerySet) (using_ : string) (pk_val : value)
    (values : list (string * value)) (update_fields : option (list string))
    (forced_update : bool) (w : World) :
  truthy (tenant w) = true ->
  let m := qs_model base_qs in
  let tenant_column := tenant_id (obj_class self) in
  let scoped := qs_filter base_qs {[ tenant_column := tenant w ]} in
  TenantModelMixin._do_update self base_qs using_ pk_val values update_fields
    forced_update w
  = Model_do_update self scoped using_ pk_val values update_fields forced_update w
  /\ (values <> [] ->
      Forall (fun r => matches pk_val (cell r (pk_attname m))
                       && matches (tenant w) (cell r (resolve_key m tenant_column))
                       = false)
             (table w m) ->
      TenantModelMixin._do_update self base_qs using_ pk_val values update_fields
        forced_update w
      = (Ok false, w)).
Proof.
  intros Hset m tenant_column scoped.
  assert (Hrun : TenantModelMixin._do_update self base_qs using_ pk_val values
                   update_fields forced_update w
                 = Model_do_update self scoped using_ pk_val values update_fields
                     forced_update w).
  { unfold TenantModelMixin._do_update. run. by rewrite !Hset. }
  split; [exact Hrun|].
  intros Hvalues Hrows. rewrite Hrun. unfold Model_do_update.
  destruct values as [|v values]; [done|]. run.
  rewrite qs_update_no_row; [done|].
  simpl. fold m. eapply Forall_impl; [exact Hrows|]. simpl. intros r Hr.
  rewrite qs_sat_filter. unfold scoped. rewrite qs_sat_filter. simpl. fold m.
  rewrite !row_sat_singleton, resolve_key_pk.
  destruct (qs_sat base_qs r); simpl; [|done].
  by rewrite andb_comm.
Qed.

Lemma do_update_scoped_by_current_tenant_witness :
  TenantModelMixin._do_update Shop.product_1 (QuerySet_new Shop.Product) "default"
    (VInt 1) [("name", VStr "tea")] None false (Shop.process (VInt 8))
  = (Ok false, Shop.process (VInt 8)).
Proof.
  refine (proj2 (do_update_scoped_by_current_tenant Shop.product_1
            (QuerySet_new Shop.Product) "default" (VInt 1) [("name", VStr "tea")]
            None false (Shop.process (VInt 8)) _) _ _).
  - reflexivity.
  - discriminate.
  - vm_compute. repeat constructor.
Defined.

(** Under the context the row was stored under, the same update goes
    through. *)
Example do_update_same_tenant :
  (TenantModelMixin._do_update Shop.product_1 (QuerySet_new Shop.Product) "default"
     (VInt 1) [("name", VStr "tea")] None false (Shop.process (VInt 7))).1
  = Ok true.
Proof. vm_compute. reflexivity. Qed.

(** ** Creation *)

Lemma getattr_setattr (self : ModelObj) (attr : string) (v : value) :
  getattr (setattr self attr v) attr = v.
Proof. unfold getattr, setattr. simpl. by rewrite lookup_insert_eq. Qed.

Lemma getattr_setattr_ne (self : ModelObj) (attr attr' : string) (v : value) :
  attr <> attr' -> getattr (setattr self attr v) attr' = getattr self attr'.
Proof. intros Hne. unfold getattr, setattr. simpl. by rewrite lookup_insert_ne. Qed.

(** What [save] does before it calls the base [save]. *)
Lemma save_unfold (self : ModelObj) (args : list value) (kwargs : gmap string value)
    (w : World) :
  TenantModelMixin.save self args kwargs w
  = Model_save TenantModelMixin._do_update
      (if negb (truthy (pk self)) && truthy (tenant w) && negb (is_list (tenant w))
       then setattr self (TenantModelMixin.tenant_field self) (tenant w)
       else self)
      args kwargs w.
Proof. reflexivity. Qed.

(** C3. For every save of an instance that has no primary key yet: if the
    current tenant value is set (true in Python's sense, which is what the
    code tests), is not a list, and the tenant attribute of the instance
    has not been assigned, then the instance reaches the base [save], and
    so the insert, with the attribute named by the [tenant_id] of its
    entity type holding the current tenant value, and with its type and
    every other attribute as they were; if the current tenant value is a
    list, the instance reaches the base [save] as it is. *)
Theorem save_stamps_current_tenant
    (self : ModelObj) (args : list value) (kwargs : gmap string value) (w : World) :
  pk self = VNone ->
  (truthy (tenant w) = true ->
   is_list (tenant w) = false ->
   getattr self (tenant_id (obj_class self)) = VNone ->
   let stamped := setattr self (tenant_id (obj_class self)) (tenant w) in
   TenantModelMixin.save self args kwargs w
     = Model_save TenantModelMixin._do_update stamped args kwargs w
   /\ getattr stamped (tenant_id (obj_class self)) = tenant w
   /\ obj_class stamped = obj_class self
   /\ delete (tenant_id (obj_class self)) (obj_attrs stamped)
      = delete (tenant_id (obj_class self)) (obj_attrs self))
  /\ (is_list (tenant w) = true ->
      TenantModelMixin.save self args kwargs w
        = Model_save TenantModelMixin._do_update self args kwargs w).
Proof.
  intros Hpk. split.
  - intros Hset Hscalar _ stamped. split; [|split; [|split]].
    + rewrite save_unfold, Hpk, Hset, Hscalar. reflexivity.
    + apply getattr_setattr.
    + reflexivity.
    + unfold stamped, setattr. simpl. apply delete_insert_eq.
  - intros Hlist. rewrite save_unfold, Hlist, andb_false_r. reflexivity.
Qed.

Lemma save_stamps_current_tenant_witness :
  (TenantModelMixin.save Shop.new_product [] ∅ (Shop.process (VInt 8))
     = Model_save TenantModelMixin._do_update
         (setattr Shop.new_product "store_id" (VInt 8)) [] ∅ (Shop.process (VInt 8))
   /\ getattr (setattr Shop.new_product "store_id" (VInt 8)) "store_id" = VInt 8)
  /\ (TenantModelMixin.save Shop.new_store [] ∅ (Shop.process (VInt 7))
        = Model_save TenantModelMixin._do_update
            (setattr Shop.new_store "id" (VInt 7)) [] ∅ (Shop.process (VInt 7))
      /\ getattr (setattr Shop.new_store "id" (VInt 7)) "id" = VInt 7)
  /\ TenantModelMixin.save Shop.new_product [] ∅ (Shop.process (VList [AInt 8; AInt 9]))
     = Model_save TenantModelMixin._do_update Shop.new_product [] ∅
         (Shop.process (VList [AInt 8; AInt 9])).
Proof.
  split; [|split].
  - destruct (proj1 (save_stamps_current_tenant Shop.new_product [] ∅
                       (Shop.process (VInt 8)) eq_refl) eq_refl eq_refl eq_refl)
      as (Hsave & Hattr & _). split; [exact Hsave|exact Hattr].
  - destruct (proj1 (save_stamps_current_tenant Shop.new_store [] ∅
                       (Shop.process (VInt 7)) eq_refl) eq_refl eq_refl eq_refl)
      as (Hsave & Hattr & _). split; [exact Hsave|exact Hattr].
  - apply (proj2 (save_stamps_current_tenant Shop.new_product [] ∅
                    (Shop.process (VList [AInt 8; AInt 9])) eq_refl)); reflexivity.
Defined.



(** The guard of [save] looks at the key and at the context only: a tenant
    attribute the caller assigned is replaced all the same. *)
Example save_replaces_assigned_tenant :
  TenantModelMixin.save (setattr Shop.new_product "store_id" (VInt 5)) [] ∅
    (Shop.process (VInt 8))
  = Model_save TenantModelMixin._do_update
      (setattr (setattr Shop.new_product "store_id" (VInt 5)) "store_id" (VInt 8))
      [] ∅ (Shop.process (VInt 8)).
Proof. reflexivity. Qed.

(** A tenant value that is false in Python's sense (here 0) counts as not
    set: nothing is stamped. *)
Example save_zero_tenant_not_stamped :
  TenantModelMixin.save Shop.new_product [] ∅ (Shop.process (VInt 0))
  = Model_save TenantModelMixin._do_update Shop.new_product [] ∅
      (Shop.process (VInt 0)).
Proof. reflexivity. Qed.

(** ** Instance traversal *)




(** Across [Purchase.product], where both entity types keep the tenant in
    [store_id], purchase 1 of store 7 fetches product 1 under tenant 7
    and nothing under tenant 8. *)
Example related_object_rows_purchase_product :
  related_object_rows Shop.purchase_product Shop.purchase_1
    {[ "store_id" := VInt 7 ]} (Shop.stocked (VInt 7)) = [Shop.row_1]
  /\ related_object_rows Shop.purchase_product Shop.purchase_1
       {[ "store_id" := VInt 8 ]} (Shop.stocked (VInt 8)) = [].
Proof. vm_compute. auto. Qed.

(** ** Subquery restriction *)

(** C5, as the code has it. For every tenant foreign key,
    [get_extra_restriction] returns no restriction when no current tenant
    value is set; for a current tenant value that is set and is not a
    list, given a fresh AND node from [where_class], it returns that node
    with a single condition: the tenant field of the entity type the
    relation is written on ([model], not [related_model]), qualified by
    [related_alias], is exactly the current tenant value. *)
Theorem get_extra_restriction_spec
    (self : ForeignKey.t) (where_class : unit -> WhereNode)
    (alias related_alias : string) (w : World) :
  (truthy (tenant w) = false ->
   TenantForeignKey.get_extra_restriction self where_class alias related_alias w
   = (Ok None, w))
  /\ (truthy (tenant w) = true ->
      is_list (tenant w) = false ->
      forall lhs_tenant_field : DbField,
      get_tenant_field (ForeignKey.model self) = Some lhs_tenant_field ->
      where_class tt = Node "AND" [] ->
      TenantForeignKey.get_extra_restriction self where_class alias related_alias w
      = (Ok (Some (Node "AND"
           [Leaf (Exact {| col_alias := related_alias;
                           col_target := lhs_tenant_field |} (tenant w))])), w)).
Proof.
  unfold TenantForeignKey.get_extra_restriction. run.
  split; intros Hset; rewrite Hset; simpl; [reflexivity|].
  intros Hscalar f Hf Hfresh. unfold Exact_new. rewrite Hf, Hscalar, Hfresh.
  reflexivity.
Qed.

Lemma get_extra_restriction_spec_witness :
  TenantForeignKey.get_extra_restriction Shop.product_store WhereNode_new "T2" "T1"
    (Shop.process VNone)
  = (Ok None, Shop.process VNone)
  /\ TenantForeignKey.get_extra_restriction Shop.product_store WhereNode_new "T2" "T1"
       (Shop.process (VInt 7))
     = (Ok (Some (Node "AND"
          [Leaf (Exact {| col_alias := "T1"; col_target := Shop.store_field |}
                       (VInt 7))])), Shop.process (VInt 7)).
Proof.
  split.
  - apply (proj1 (get_extra_restriction_spec Shop.product_store WhereNode_new
                    "T2" "T1" (Shop.process VNone))). reflexivity.
  - apply (proj2 (get_extra_restriction_spec Shop.product_store WhereNode_new
                    "T2" "T1" (Shop.process (VInt 7)))); reflexivity.
Defined.

(** With a list of tenant values in the context the lookup cannot be
    built: the call raises [TypeError], whatever the relation. *)
Lemma get_extra_restriction_list_raises
    (self : ForeignKey.t) (where_class : unit -> WhereNode)
    (alias related_alias : string) (w : World) (lhs_tenant_field : DbField) :
  truthy (tenant w) = true ->
  is_list (tenant w) = true ->
  get_tenant_field (ForeignKey.model self) = Some lhs_tenant_field ->
  exists msg : string,
    TenantForeignKey.get_extra_restriction self where_class alias related_alias w
    = (Raise (TypeError msg), w).
Proof.
  intros Hset Hlist Hf. unfold TenantForeignKey.get_extra_restriction. run.
  rewrite Hset. simpl. unfold Exact_new. rewrite Hf, Hlist. by eexists.
Qed.

(** Against C5 as stated. For [Product.store], which points to [Store], the
    condition returned is on [store_id], the tenant column of [Product]; under no alias is it
    a condition on the tenant field of [Store], the target. *)
Lemma get_extra_restriction_not_on_target :
  get_tenant_field (ForeignKey.related_model Shop.product_store) = Some Shop.id_field
  /\ forall a : string,
       (TenantForeignKey.get_extra_restriction Shop.product_store WhereNode_new
          "T2" "T1" (Shop.process (VInt 7))).1
       <> Ok (Some (Node "AND"
            [Leaf (Exact {| col_alias := a; col_target := Shop.id_field |}
                         (VInt 7))])).
Proof.
  split; [reflexivity|]. intros a. vm_compute. intros Heq.
  inversion Heq.
Qed.

(** ** Collection reads *)

(** C6. For every manager of a tenant-scoped entity type, [get_queryset]
    returns the base queryset intersected with the tenant filter of that
    type when a current tenant is set (its rows are the rows of the base
    queryset that satisfy the filter), and the base queryset itself,
    unfiltered, when none is set. *)
Theorem get_queryset_spec (self : Manager.t) (w : World) :
  let queryset := Manager._queryset_class self (Manager.model self) in
  let kwargs : gmap string value := {[ tenant_id (Manager.model self) := tenant w ]} in
  (truthy (tenant w) = true ->
   TenantManagerMixin.get_queryset self w = (Ok (qs_filter queryset kwargs), w)
   /\ qs_rows (qs_filter queryset kwargs) w
      = List.filter (row_sat (qs_model queryset) kwargs) (qs_rows queryset w))
  /\ (truthy (tenant w) = false ->
      TenantManagerMixin.get_queryset self w = (Ok queryset, w)).
Proof.
  intros queryset kwargs. unfold TenantManagerMixin.get_queryset. run.
  split; intros Hset; rewrite Hset; simpl; [|reflexivity].
  rewrite Hset. split; [reflexivity|]. apply qs_rows_filter.
Qed.

Lemma get_queryset_spec_witness :
  TenantManagerMixin.get_queryset Shop.products (Shop.process (VInt 7))
  = (Ok (qs_filter (QuerySet_new Shop.Product) {[ "store_id" := VInt 7 ]}),
     Shop.process (VInt 7))
  /\ TenantManagerMixin.get_queryset Shop.products (Shop.process VNone)
     = (Ok (QuerySet_new Shop.Product), Shop.process VNone).
Proof.
  split.
  - apply (proj1 (get_queryset_spec Shop.products (Shop.process (VInt 7)))).
    reflexivity.
  - apply (proj2 (get_queryset_spec Shop.products (Shop.process VNone))).
    reflexivity.
Defined.

(** Product 1 is read under the store it belongs to and under no context,
    and hidden under another store. *)
Example get_queryset_rows :
  qs_rows (qs_filter (QuerySet_new Shop.Product) {[ "store_id" := VInt 7 ]})
    (Shop.process (VInt 7)) = [Shop.row_1]
  /\ qs_rows (qs_filter (QuerySet_new Shop.Product) {[ "store_id" := VInt 8 ]})
       (Shop.process (VInt 8)) = []
  /\ qs_rows (QuerySet_new Shop.Product) (Shop.process VNone) = [Shop.row_1].
Proof. vm_compute. auto. Qed.

(** ** No tenant context *)

(** Against C7 as stated. A collection read made with no tenant in the
    context leaves the log empty: no warning is emitted on that path. *)
Lemma get_queryset_emits_no_warning :
  truthy (tenant (Shop.process VNone)) = false
  /\ log (TenantManagerMixin.get_queryset Shop.products (Shop.process VNone)).2 = [].
Proof. split; reflexivity. Qed.

(** C7, as the code has it. Whenever no current tenant is set, a
    collection read and an entity update both go ahead unscoped and
    neither fails. The update emits one warning, with the name of the
    entity type and the instance as its arguments; the read returns the
    base queryset and emits nothing. *)
Theorem no_tenant_read_and_update
    (manager : Manager.t) (self : ModelObj) (base_qs : QuerySet) (using_ : string)
    (pk_val : value) (values : list (string * value))
    (update_fields : option (list string)) (forced_update : bool) (w : World) :
  truthy (tenant w) = false ->
  let warning :=
    {| log_level := WARNING; log_msg := TenantModelMixin.update_warning;
       log_args := [ArgStr (__name__ (obj_class self)); ArgObj self] |} in
  TenantManagerMixin.get_queryset manager w
    = (Ok (Manager._queryset_class manager (Manager.model manager)), w)
  /\ TenantModelMixin._do_update self base_qs using_ pk_val values update_fields
       forced_update w
     = Model_do_update self base_qs using_ pk_val values update_fields forced_update
         (set_log (log w ++ [warning]) w)
  /\ exists (updated : bool) (w' : World),
       TenantModelMixin._do_update self base_qs using_ pk_val values update_fields
         forced_update w = (Ok updated, w')
       /\ log w' = log w ++ [warning].
Proof.
  intros Hunset warning.
  assert (Hrun : TenantModelMixin._do_update self base_qs using_ pk_val values
                   update_fields forced_update w
                 = Model_do_update self base_qs using_ pk_val values update_fields
                     forced_update (set_log (log w ++ [warning]) w)).
  { unfold TenantModelMixin._do_update. run. by rewrite Hunset. }
  split; [|split].
  - unfold TenantManagerMixin.get_queryset. run. by rewrite Hunset.
  - exact Hrun.
  - rewrite Hrun.
    destruct (Model_do_update_returns self base_qs using_ pk_val values
                update_fields forced_update (set_log (log w ++ [warning]) w))
      as (updated & w' & Heq & Hlog & _).
    exists updated, w'. split; [exact Heq|]. rewrite Hlog. reflexivity.
Qed.

Lemma no_tenant_read_and_update_witness :
  TenantManagerMixin.get_queryset Shop.products (Shop.process VNone)
    = (Ok (QuerySet_new Shop.Product), Shop.process VNone)
  /\ exists (updated : bool) (w' : World),
       TenantModelMixin._do_update Shop.product_1 (QuerySet_new Shop.Product)
         "default" (VInt 1) [("name", VStr "tea")] None false (Shop.process VNone)
       = (Ok updated, w')
       /\ log w'
          = [{| log_level := WARNING; log_msg := TenantModelMixin.update_warning;
                log_args := [ArgStr "Product"; ArgObj Shop.product_1] |}].
Proof.
  destruct (no_tenant_read_and_update Shop.products Shop.product_1
              (QuerySet_new Shop.Product) "default" (VInt 1)
              [("name", VStr "tea")] None false (Shop.process VNone) eq_refl)
    as (Hread & _ & Hupdate).
  split; [exact Hread|exact Hupdate].
Defined.

(** ** Installing the DELETE compiler wrapper *)

Lemma Model_init_world (cls : Model) (args : list value)
    (kwargs : gmap string value) (w : World) :
  (Model_init cls args kwargs w).2 = w.
Proof. unfold Model_init. by repeat case_match. Qed.

(** What a construction does to the process, whatever becomes of the
    instance. *)
Lemma init_world (cls : Model) (args : list value) (kwargs : gmap string value)
    (w : World) :
  (TenantModelMixin.__init__ cls args kwargs w).2
  = if hasattr (DeleteQuery_get_compiler w) "_sign" then w
    else set_patches (wrap_get_compiler (DeleteQuery_get_compiler w))
           related_objects w.
Proof.
  unfold TenantModelMixin.__init__. run.
  destruct (hasattr (DeleteQuery_get_compiler w) "_sign"); simpl.
  - apply Model_init_world.
  - apply Model_init_world.
Qed.

Lemma init_marked (cls : Model) (args : list value) (kwargs : gmap string value)
    (w : World) :
  hasattr (DeleteQuery_get_compiler (TenantModelMixin.__init__ cls args kwargs w).2)
    "_sign" = true.
Proof.
  rewrite init_world.
  destruct (hasattr (DeleteQuery_get_compiler w) "_sign") eqn:Hsign; [exact Hsign|].
  reflexivity.
Qed.

Lemma construct_all_marked (calls : list (Model * list value * gmap string value))
    (w : World) :
  hasattr (DeleteQuery_get_compiler w) "_sign" = true -> construct_all calls w = w.
Proof.
  revert w. induction calls as [|c calls IH]; intros w Hsign; [reflexivity|].
  unfold construct_all. simpl. rewrite init_world, Hsign. by apply IH.
Qed.

(** C8. Installing the DELETE compiler wrapper is idempotent. After any
    construction of a tenant model the function bound to
    [DeleteQuery.get_compiler] carries the marker [_sign], and a further
    construction leaves the process exactly as it is. In a process that
    starts with the mapper's own function, after one construction and any
    number of further ones there is one wrapper around it, not more, and
    compiling a DELETE under a current tenant appends the tenant filter
    of the target entity type once. *)
Theorem install_wrapper_idempotent
    (cls cls' : Model) (args args' : list value) (kwargs kwargs' : gmap string value)
    (w : World) :
  let w1 := (TenantModelMixin.__init__ cls args kwargs w).2 in
  hasattr (DeleteQuery_get_compiler w1) "_sign" = true
  /\ (TenantModelMixin.__init__ cls' args' kwargs' w1).2 = w1
  /\ (DeleteQuery_get_compiler w = builtin_get_compiler ->
      forall (calls : list (Model * list value * gmap string value))
             (query : QuerySet),
        let wn := construct_all calls w1 in
        DeleteQuery_get_compiler wn = wrapper builtin_get_compiler
        /\ Collector_related_objects wn = tenant_related_objects
        /\ (truthy (tenant w) = true ->
            compile_delete query wn
            = (Ok (qs_filter query {[ tenant_id (qs_model query) := tenant w ]}),
               wn))).
Proof.
  intros w1.
  assert (Hmarked : hasattr (DeleteQuery_get_compiler w1) "_sign" = true)
    by apply init_marked.
  split; [exact Hmarked|]. split.
  - rewrite init_world, Hmarked. reflexivity.
  - intros Hfresh calls query wn.
    assert (Hwn : wn = set_patches (wrapper builtin_get_compiler)
                         tenant_related_objects w).
    { unfold wn. rewrite (construct_all_marked calls w1 Hmarked).
      unfold w1. rewrite init_world, Hfresh. reflexivity. }
    rewrite Hwn. simpl. split; [reflexivity|]. split; [reflexivity|].
    intros Hset. unfold compile_delete. run. simpl. run. simpl.
    rewrite Hset. simpl. rewrite Hset. reflexivity.
Qed.

Lemma install_wrapper_idempotent_witness :
  DeleteQuery_get_compiler
    (construct_all Shop.constructions
       (TenantModelMixin.__init__ Shop.Product [] ∅ (Shop.process (VInt 7))).2)
  = wrapper builtin_get_compiler
  /\ compile_delete (QuerySet_new Shop.Product)
       (construct_all Shop.constructions
          (TenantModelMixin.__init__ Shop.Product [] ∅ (Shop.process (VInt 7))).2)
     = (Ok (qs_filter (QuerySet_new Shop.Product) {[ "store_id" := VInt 7 ]}),
        construct_all Shop.constructions
          (TenantModelMixin.__init__ Shop.Product [] ∅ (Shop.process (VInt 7))).2).
Proof.
  destruct (install_wrapper_idempotent Shop.Product Shop.Product [] [] ∅ ∅
              (Shop.process (VInt 7))) as (_ & _ & Hfresh).
  destruct (Hfresh eq_refl Shop.constructions (QuerySet_new Shop.Product))
    as (Hf & _ & Hdel).
  split; [exact Hf|]. exact (Hdel eq_refl).
Defined.

(** ** System checks *)

(** C9. For every tenant foreign key the check of the referenced column
    reports nothing, whether or not that column is unique by itself. *)
Theorem check_unique_target_suppressed (self : ForeignKey.t) :
  TenantForeignKey._check_unique_target self = [].
Proof. reflexivity. Qed.

(** On [Purchase.product], whose referenced column is not unique by
    itself, the check of the base class reports [fields.E311]; the
    override reports nothing. *)
Example check_unique_target_purchase_product :
  ForeignObject_check_unique_target Shop.purchase_product
  = [CheckError "fields.E311"
       "must set unique=True because it is referenced by a foreign key."]
  /\ TenantForeignKey._check_unique_target Shop.purchase_product = [].
Proof. split; reflexivity. Qed.

(** ** Constructing a one-to-one field *)

(** Keywords that are not named parameters pass through the binding of a
    call untouched. *)
Lemma bind_params_rest (params : list (string * option value)) (k : string) :
  Forall (fun p => p.1 <> k) params ->
  forall (args : list value) (kwargs : gmap string value)
         (vs : list value) (rest : gmap string value),
    bind_params params args kwargs = Ok (vs, rest) ->
    rest !! k = kwargs !! k.
Proof.
  induction 1 as [|[p dflt] params Hp _ IH]; intros args kwargs vs rest Hbind.
  - destruct args; simpl in Hbind; [|discriminate]. by inversion Hbind.
  - simpl in Hp. destruct args as [|a args]; simpl in Hbind.
    + destruct (kwargs !! p) as [v|] eqn:Hkp.
      * destruct (bind_params params [] (delete p kwargs)) as [[vs' rest']|e] eqn:Hrec;
          simpl in Hbind; [|discriminate].
        inversion Hbind; subst. rewrite (IH _ _ _ _ Hrec).
        by rewrite lookup_delete_ne.
      * destruct dflt as [d|]; [|discriminate].
        destruct (bind_params params [] kwargs) as [[vs' rest']|e] eqn:Hrec;
          simpl in Hbind; [|discriminate].
        inversion Hbind; subst. by apply (IH _ _ _ _ Hrec).
    + destruct (kwargs !! p) as [v|] eqn:Hkp; [discriminate|].
      destruct (bind_params params args kwargs) as [[vs' rest']|e] eqn:Hrec;
        simpl in Hbind; [|discriminate].
      inversion Hbind; subst. by apply (IH _ _ _ _ Hrec).
Qed.

(** [TenantOneToOneField.__init__] hands [unique = False] to the next
    constructor, whatever the caller passed. *)
Lemma one_to_one_passes_unique_false (args : list value) (kwargs : gmap string value) :
  TenantOneToOneField.__init__ args kwargs
  = TenantOneToOneField.super_init args (<["unique" := VFalse]> kwargs)
  /\ (<["unique" := VFalse]> kwargs) !! "unique" = Some VFalse.
Proof. split; [reflexivity|apply lookup_insert_eq]. Qed.

(** That next constructor is [OneToOneField.__init__], which sets
    [unique = True] before it goes on: every field that comes out of
    [TenantOneToOneField.__init__] is unique. *)
Lemma one_to_one_always_unique (args : list value) (kwargs : gmap string value)
    (f : RelatedField) :
  TenantOneToOneField.__init__ args kwargs = Ok f -> unique f = VTrue.
Proof.
  unfold TenantOneToOneField.__init__, TenantOneToOneField.super_init,
    OneToOneField_init.
  cbv [mbind result_bind].
  destruct (bind_params _ args _) as [[vs rest]|e]; [|discriminate].
  destruct vs as [|v_to [|v_on_delete [|v_to_field [|? ?]]]]; try discriminate.
  unfold TenantIDFieldMixin.__init__, ForeignKey_init. cbv [mbind result_bind mret result_ret].
  destruct (bind_params _ _ _) as [[vs2 rest2]|e] eqn:Hbind; [|discriminate].
  do 8 (destruct vs2 as [|? vs2]; try discriminate).
  destruct vs2; [|discriminate].
  intros Hf. inversion Hf; subst. clear Hf.
  assert (Hunique : rest2 !! "unique" = Some VTrue).
  { erewrite bind_params_rest; [|..|exact Hbind].
    - rewrite lookup_delete_ne by discriminate.
      rewrite lookup_insert_ne by discriminate. apply lookup_insert_eq.
    - repeat constructor; discriminate. }
  unfold unique. simpl. rewrite Hunique. reflexivity.
Qed.

(** C10, at [TenantOneToOneField(Store, CASCADE)], alone, with
    [unique=False] and with [unique=True]: the field constructed has
    [unique == True] each time, not [False]. The assignment
    [kwargs["unique"] = False] is overwritten by
    [OneToOneField.__init__], the next constructor in the method
    resolution order. *)
Theorem one_to_one_field_is_unique :
  unique <$> TenantOneToOneField.__init__ [VStr "Store"; VStr "CASCADE"] ∅
    = Ok VTrue
  /\ unique <$> TenantOneToOneField.__init__ [VStr "Store"; VStr "CASCADE"]
                  {[ "unique" := VFalse ]}
     = Ok VTrue
  /\ unique <$> TenantOneToOneField.__init__ [VStr "Store"; VStr "CASCADE"]
                  {[ "unique" := VTrue ]}
     = Ok VTrue.
Proof. vm_compute. auto. Qed.

(** ** Two scenarios end to end *)

(** A product created under store 8 is stamped with it and is not among
    the products read under store 9. *)
Example created_under_one_tenant_hidden_under_another :
  ((_ ← set_current_tenant (VInt 8);
    saved ← TenantModelMixin.save Shop.new_product [] ∅;
    _ ← set_current_tenant (VInt 9);
    queryset ← TenantManagerMixin.get_queryset Shop.products;
    rows ← gets (qs_rows queryset);
    mret (TenantModelMixin.tenant_value saved, rows)) (Shop.process VNone)).1
  = Ok (VInt 8, []).
Proof. vm_compute. reflexivity. Qed.

(** With no tenant in the context a product is created with no tenant
    value; a read returns every product, the new one included, and the
    log stays empty. *)
Example created_and_read_without_tenant :
  let outcome :=
    (saved ← TenantModelMixin.save Shop.new_product [] ∅;
     queryset ← TenantManagerMixin.get_queryset Shop.products;
     rows ← gets (qs_rows queryset);
     mret (TenantModelMixin.tenant_value saved, rows, obj_attrs saved))
      (Shop.process VNone) in
  exists (attrs : gmap string value),
    outcome.1 = Ok (VNone, [Shop.row_1; attrs], attrs) /\ log outcome.2 = [].
Proof. eexists. vm_compute. split; reflexivity. Qed.

(** * Further properties of the two files *)

(** ** Joining columns in both directions *)

(** The joining columns of the reverse direction are those of the forward
    direction with each pair turned round exactly when the two entity
    types name their tenant column alike: otherwise the tenant pair stays
    as in the forward direction while the key pairs are turned. *)
Theorem get_joining_columns_reverse_iff (self : ForeignKey.t) :
  TenantForeignKey.get_joining_columns self true
  = List.map swap_pair (TenantForeignKey.get_joining_columns self false)
  <-> tenant_id (ForeignKey.model self) = tenant_id (ForeignKey.related_model self).
Proof.
  unfold TenantForeignKey.get_joining_columns, ForeignObject_get_joining_columns,
    reverse_related_fields, get_tenant_column.
  rewrite List.map_app, !List.map_map. simpl. unfold swap_pair at 2. simpl.
  split.
  - intros Heq. apply app_inv_head in Heq. by inversion Heq.
  - intros Hsame. by rewrite Hsame.
Qed.

Lemma get_joining_columns_reverse_iff_witness :
  TenantForeignKey.get_joining_columns Shop.purchase_product true
  = List.map swap_pair (TenantForeignKey.get_joining_columns Shop.purchase_product false)
  /\ TenantForeignKey.get_joining_columns Shop.product_store true
     <> List.map swap_pair (TenantForeignKey.get_joining_columns Shop.product_store false).
Proof.
  split.
  - apply (proj2 (get_joining_columns_reverse_iff Shop.purchase_product)).
    reflexivity.
  - intros Heq.
    apply (proj1 (get_joining_columns_reverse_iff Shop.product_store)) in Heq.
    discriminate Heq.
Defined.

(** ** Reads stay inside the tenant *)

Lemma qs_sat_chain (extra : list (gmap string value)) (qs : QuerySet) (r : Row) :
  qs_sat (fold_left qs_filter extra qs) r = true -> qs_sat qs r = true.
Proof.
  revert qs. induction extra as [|kwargs extra IH]; intros qs Hsat; [exact Hsat|].
  simpl in Hsat. apply IH in Hsat. rewrite qs_sat_filter in Hsat.
  by apply andb_true_iff in Hsat as [Hqs _].
Qed.

Lemma qs_model_chain (extra : list (gmap string value)) (qs : QuerySet) :
  qs_model (fold_left qs_filter extra qs) = qs_model qs.
Proof.
  revert qs. induction extra as [|kwargs extra IH]; intros qs; [reflexivity|].
  simpl. by rewrite IH.
Qed.

(** Under a current tenant, every row of the queryset a manager returns
    carries a tenant value matching the context, and this survives any
    further [filter] calls made on that queryset. *)
Theorem get_queryset_rows_match_tenant
    (self : Manager.t) (extra : list (gmap string value)) (w : World)
    (qs : QuerySet) (r : Row) :
  truthy (tenant w) = true ->
  (TenantManagerMixin.get_queryset self w).1 = Ok qs ->
  In r (qs_rows (fold_left qs_filter extra qs) w) ->
  matches (tenant w)
    (cell r (resolve_key (qs_model qs) (tenant_id (Manager.model self)))) = true.
Proof.
  intros Hset Hqs Hr.
  unfold TenantManagerMixin.get_queryset in Hqs. revert Hqs. run.
  rewrite Hset. simpl. rewrite Hset. intros Hqs. inversion Hqs; subst qs; clear Hqs.
  unfold qs_rows in Hr. apply filter_In in Hr as [_ Hsat].
  apply qs_sat_chain in Hsat. rewrite qs_sat_filter in Hsat.
  apply andb_true_iff in Hsat as [_ Hsat].
  by rewrite row_sat_singleton in Hsat.
Qed.

Lemma get_queryset_rows_match_tenant_witness :
  matches (VInt 7) (cell Shop.row_1 "store_id") = true.
Proof.
  apply (get_queryset_rows_match_tenant Shop.products [ {[ "id" := VInt 1 ]} ]
           (Shop.process (VInt 7))
           (qs_filter (QuerySet_new Shop.Product) {[ "store_id" := VInt 7 ]})
           Shop.row_1).
  - reflexivity.
  - reflexivity.
  - vm_compute. by left.
Defined.

(** ** Updates stay inside the tenant *)

Lemma do_update_with_tenant self base_qs using_ pk_val values update_fields
    forced_update (w : World) :
  truthy (tenant w) = true ->
  TenantModelMixin._do_update self base_qs using_ pk_val values update_fields
    forced_update w
  = Model_do_update self
      (qs_filter base_qs {[ tenant_id (obj_class self) := tenant w ]})
      using_ pk_val values update_fields forced_update w.
Proof. intros Hset. unfold TenantModelMixin._do_update. run. by rewrite !Hset. Qed.

Lemma update_target_sat self base_qs pk_val (w : World) (r : Row) :
  qs_sat (qs_filter (qs_filter base_qs {[ tenant_id (obj_class self) := tenant w ]})
            {[ "pk" := pk_val ]}) r
  = update_target self base_qs pk_val w r.
Proof.
  rewrite !qs_sat_filter. simpl. by rewrite !row_sat_singleton, resolve_key_pk.
Qed.

Lemma filter_nonempty_existsb {A} (f : A -> bool) (l : list A) :
  negb (Nat.eqb (length (List.filter f l)) 0) = existsb f l.
Proof.
  induction l as [|x l IH]; simpl; [reflexivity|].
  destruct (f x); simpl; [reflexivity|exact IH].
Qed.

Lemma table_alter_same (f : list Row -> list Row) (m : Model) (w : World) :
  f [] = [] ->
  table (set_db (alter f (db_table m) (db w)) w) m = f (table w m).
Proof.
  intros Hnil. unfold table. simpl. rewrite lookup_alter_eq.
  destruct (db w !! db_table m); simpl; [reflexivity|by rewrite Hnil].
Qed.

Lemma table_alter_other (f : list Row -> list Row) (m m' : Model) (w : World) :
  db_table m' <> db_table m ->
  table (set_db (alter f (db_table m) (db w)) w) m' = table w m'.
Proof.
  intros Hne. unfold table. simpl. rewrite lookup_alter_ne; [reflexivity|].
  by apply not_eq_sym.
Qed.

Lemma assign_nil (r : Row) : assign [] r = r.
Proof. reflexivity. Qed.

(** Under a current tenant and with values to write, [_do_update] reports
    [True] exactly when the table holds a row of [base_qs] that has the
    key of the instance and carries the tenant value of the context. *)
Theorem do_update_reports_row_found
    (self : ModelObj) (base_qs : QuerySet) (using_ : string) (pk_val : value)
    (values : list (string * value)) (update_fields : option (list string))
    (forced_update : bool) (w : World) :
  truthy (tenant w) = true ->
  values <> [] ->
  (TenantModelMixin._do_update self base_qs using_ pk_val values update_fields
     forced_update w).1
  = Ok (existsb (update_target self base_qs pk_val w) (table w (qs_model base_qs))).
Proof.
  intros Hset Hvalues. rewrite do_update_with_tenant by exact Hset.
  unfold Model_do_update. destruct values as [|v values]; [done|].
  run. unfold qs_update, qs_rows. simpl. f_equal.
  rewrite <- filter_nonempty_existsb. f_equal. f_equal. f_equal.
  apply List.filter_ext. intros r. apply update_target_sat.
Qed.

Lemma do_update_reports_row_found_witness :
  (TenantModelMixin._do_update Shop.product_1 (QuerySet_new Shop.Product) "default"
     (VInt 1) [("name", VStr "tea")] None false (Shop.process (VInt 7))).1
  = Ok true.
Proof.
  refine (do_update_reports_row_found Shop.product_1 (QuerySet_new Shop.Product)
            "default" (VInt 1) [("name", VStr "tea")] None false
            (Shop.process (VInt 7)) _ _).
  - reflexivity.
  - discriminate.
Defined.

(** Under a current tenant, [_do_update] rewrites the rows of the table of
    [base_qs] that have the key of the instance and carry the tenant value
    of the context, and nothing else: every other row of that table, every
    other table, the log and the tenant context are as before. *)
Theorem do_update_touches_only_tenant_rows
    (self : ModelObj) (base_qs : QuerySet) (using_ : string) (pk_val : value)
    (values : list (string * value)) (update_fields : option (list string))
    (forced_update : bool) (w : World) :
  truthy (tenant w) = true ->
  let w' := (TenantModelMixin._do_update self base_qs using_ pk_val values
               update_fields forced_update w).2 in
  table w' (qs_model base_qs)
  = List.map (fun r => if update_target self base_qs pk_val w r
                       then assign values r else r)
             (table w (qs_model base_qs))
  /\ (forall m' : Model,
        db_table m' <> db_table (qs_model base_qs) -> table w' m' = table w m')
  /\ log w' = log w
  /\ tenant w' = tenant w.
Proof.
  intros Hset w'. unfold w'. rewrite do_update_with_tenant by exact Hset.
  unfold Model_do_update. destruct values as [|v values]; run.
  - simpl. split; [|by auto].
    rewrite <- (map_id (table w (qs_model base_qs))) at 1.
    apply List.map_ext. intros r. by destruct (update_target _ _ _ _ r).
  - unfold qs_update. simpl.
    split; [|split; [|by destruct w]].
    + rewrite (table_alter_same _ (qs_model base_qs) w) by reflexivity.
      apply List.map_ext. intros r.
      by rewrite (update_target_sat self base_qs pk_val w r).
    + intros m' Hne. by apply table_alter_other.
Qed.

Lemma do_update_touches_only_tenant_rows_witness :
  table (TenantModelMixin._do_update Shop.product_1 (QuerySet_new Shop.Product)
           "default" (VInt 1) [("name", VStr "tea")] None false
           (Shop.process (VInt 8))).2 Shop.Product
  = [Shop.row_1].
Proof.
  exact (proj1 (do_update_touches_only_tenant_rows Shop.product_1
                  (QuerySet_new Shop.Product) "default" (VInt 1)
                  [("name", VStr "tea")] None false (Shop.process (VInt 8))
                  eq_refl)).
Defined.

(** ** Saving *)

(** [_do_update] never raises. *)
Lemma do_update_returns self base_qs using_ pk_val values update_fields
    forced_update (w : World) :
  exists (updated : bool) (w' : World),
    TenantModelMixin._do_update self base_qs using_ pk_val values update_fields
      forced_update w = (Ok updated, w').
Proof.
  unfold TenantModelMixin._do_update. run.
  destruct (truthy (tenant w)); simpl.
  - destruct (Model_do_update_returns self
                (qs_filter base_qs
                   (if truthy (tenant w)
                    then {[ tenant_id (obj_class self) := tenant w ]} else ∅))
                using_ pk_val values update_fields forced_update w)
      as (b & w' & Heq & _). eauto.
  - match goal with
    | |- context [Model_do_update ?s ?q ?u ?p ?v ?uf ?fu ?w0] =>
        destruct (Model_do_update_returns s q u p v uf fu w0) as (b & w' & Heq & _)
    end. eauto.
Qed.

Lemma truthy_not_none (v : value) : truthy v = true -> is_none v = false.
Proof. by destruct v. Qed.



(** What the INSERT hands back. *)
Lemma insert_row_result (self : ModelObj) (w : World) (saved : ModelObj) (w' : World) :
  insert_row self w = (Ok saved, w') ->
  obj_class saved = obj_class self
  /\ (is_none (pk self) = false -> saved = self)
  /\ (forall attr : string,
        attr <> pk_attname (obj_class self) -> getattr saved attr = getattr self attr).
Proof.
  unfold insert_row. destruct (is_none (pk self)) eqn:Hnone.
  - intros Heq. inversion Heq; subst; clear Heq. split; [reflexivity|].
    split; [discriminate|]. intros attr Hattr.
    by apply getattr_setattr_ne, not_eq_sym.
  - destruct (has_key _ _ _); [discriminate|].
    intros Heq. inversion Heq; subst. auto.
Qed.

(** Whenever the base [save] returns, the instance it hands back is the
    one it was given or what the INSERT made of it. *)
Lemma Model_save_result (do_update : do_update_method) (self : ModelObj)
    (args : list value) (kwargs : gmap string value) (w : World)
    (saved : ModelObj) (w' : World) :
  Model_save do_update self args kwargs w = (Ok saved, w') ->
  saved = self \/ exists w0 : World, insert_row self w0 = (Ok saved, w').
Proof.
  unfold Model_save, save_table. cbv [mbind M_bind bind mret M_ret ret raise].
  intros Hsave.
  repeat match type of Hsave with
         | context [match ?c with _ => _ end] =>
             lazymatch c with
             | insert_row _ _ => fail
             | _ => destruct c eqn:?
             end
         end;
    try discriminate; try (inversion Hsave; subst; by left); right; by eexists.
Qed.



(** Whenever saving an instance without a key under a scalar tenant value
    returns, the instance that comes back is of the same entity type and
    holds the current tenant value in the attribute named by the
    [tenant_id] of that type; for an entity type whose tenant column is
    its key (a tenant root) that value is thereby its key. *)
Theorem save_new_instance_carries_tenant
    (self : ModelObj) (args : list value) (kwargs : gmap string value) (w : World)
    (saved : ModelObj) (w' : World) :
  pk self = VNone ->
  truthy (tenant w) = true ->
  is_list (tenant w) = false ->
  TenantModelMixin.save self args kwargs w = (Ok saved, w') ->
  obj_class saved = obj_class self
  /\ getattr saved (tenant_id (obj_class self)) = tenant w
  /\ (tenant_id (obj_class self) = pk_attname (obj_class self) ->
      pk saved = tenant w).
Proof.
  intros Hpk Hset Hscalar. rewrite save_unfold, Hpk, Hset, Hscalar. simpl.
  unfold TenantModelMixin.tenant_field.
  set (stamped := setattr self (tenant_id (obj_class self)) (tenant w)).
  assert (Hstamped : getattr stamped (tenant_id (obj_class self)) = tenant w)
    by apply getattr_setattr.
  intros Hsave.
  assert (Hsaved : obj_class saved = obj_class self
                   /\ getattr saved (tenant_id (obj_class self)) = tenant w).
  { apply Model_save_result in Hsave as [->|[w0 Hinsert]]; [by split|].
    apply insert_row_result in Hinsert as (Hclass & Hkeyed & Hattrs).
    split; [exact Hclass|].
    destruct (decide (tenant_id (obj_class self) = pk_attname (obj_class self)))
      as [Hroot|Hne].
    - rewrite Hkeyed; [exact Hstamped|].
      apply truthy_not_none. unfold pk. simpl. rewrite <- Hroot, Hstamped.
      exact Hset.
    - rewrite Hattrs; [exact Hstamped|exact Hne]. }
  destruct Hsaved as [Hclass Hattr]. split; [exact Hclass|]. split; [exact Hattr|].
  intros Hroot. unfold pk. rewrite Hclass, <- Hroot. exact Hattr.
Qed.

Lemma save_new_instance_carries_tenant_witness :
  exists (saved : ModelObj) (w' : World),
    TenantModelMixin.save Shop.new_store [] ∅ (Shop.process (VInt 7)) = (Ok saved, w')
    /\ obj_class saved = Shop.Store
    /\ getattr saved "id" = VInt 7
    /\ pk saved = VInt 7.
Proof.
  assert (Hsaved : exists (saved : ModelObj) (w' : World),
            TenantModelMixin.save Shop.new_store [] ∅ (Shop.process (VInt 7))
            = (Ok saved, w')).
  { vm_compute. eexists _, _. reflexivity. }
  destruct Hsaved as (saved & w' & Hsave).
  exists saved, w'. split; [exact Hsave|].
  destruct (save_new_instance_carries_tenant Shop.new_store [] ∅
              (Shop.process (VInt 7)) saved w' eq_refl eq_refl eq_refl Hsave)
    as (Hclass & Hattr & Hkey).
  split; [exact Hclass|]. split; [exact Hattr|]. exact (Hkey eq_refl).
Defined.

(** ** Saving, then reading *)






(** ** The tenant column kept on a field *)

Lemma init_tenant_id (super_init : init_method) (args : list value)
    (kwargs : gmap string value) (f : RelatedField) :
  TenantIDFieldMixin.__init__ super_init args kwargs = Ok f ->
  exists f0 : RelatedField,
    super_init args (delete "tenant_id" kwargs) = Ok f0
    /\ f = set_field_tenant_id (default VNone (kwargs !! "tenant_id")) f0.
Proof.
  unfold TenantIDFieldMixin.__init__. cbv [mbind result_bind mret result_ret].
  destruct (super_init _ _) as [f0|e]; [|discriminate].
  intros Heq. inversion Heq. eauto.
Qed.

(** Every one-to-one field that is constructed carries the [tenant_id]
    keyword it was given ([None] when there was none), and that keyword is
    not among the options that reach the field classes below. *)
Theorem one_to_one_keeps_tenant_id (args : list value) (kwargs : gmap string value)
    (f : RelatedField) :
  TenantOneToOneField.__init__ args kwargs = Ok f ->
  field_tenant_id f = default VNone (kwargs !! "tenant_id")
  /\ options f !! "tenant_id" = None.
Proof.
  unfold TenantOneToOneField.__init__, TenantOneToOneField.super_init,
    OneToOneField_init.
  cbv [mbind result_bind].
  destruct (bind_params _ args _) as [[vs rest]|e] eqn:Hbind1; [|discriminate].
  destruct vs as [|v_to [|v_on_delete [|v_to_field [|? ?]]]]; try discriminate.
  intros Hinit. apply init_tenant_id in Hinit as (f0 & Hf0 & ->).
  assert (Hrest : rest !! "tenant_id" = kwargs !! "tenant_id").
  { erewrite bind_params_rest; [|..|exact Hbind1].
    - by rewrite lookup_insert_ne.
    - repeat constructor; discriminate. }
  split.
  - simpl. rewrite !lookup_insert_ne by discriminate. by rewrite Hrest.
  - revert Hf0. unfold ForeignKey_init. cbv [mbind result_bind].
    destruct (bind_params _ [v_to; v_on_delete] _) as [[vs2 rest2]|e] eqn:Hbind2;
      [|discriminate].
    do 8 (destruct vs2 as [|? vs2]; try discriminate).
    destruct vs2; [|discriminate].
    intros Hf0. inversion Hf0; subst; clear Hf0. simpl.
    rewrite !lookup_insert_ne by discriminate.
    rewrite !lookup_delete_ne by discriminate.
    erewrite bind_params_rest; [|..|exact Hbind2].
    + apply lookup_delete_eq.
    + repeat constructor; discriminate.
Qed.

Lemma one_to_one_keeps_tenant_id_witness :
  exists f : RelatedField,
    TenantOneToOneField.__init__ [VStr "Product"; VStr "CASCADE"]
      {[ "tenant_id" := VStr "store_id" ]} = Ok f
    /\ field_tenant_id f = VStr "store_id"
    /\ options f !! "tenant_id" = None.
Proof.
  destruct (TenantOneToOneField.__init__ [VStr "Product"; VStr "CASCADE"]
              {[ "tenant_id" := VStr "store_id" ]}) as [f|e] eqn:Hinit;
    [|discriminate Hinit].
  exists f. split; [reflexivity|].
  exact (one_to_one_keeps_tenant_id _ _ f Hinit).
Defined.

(** ** The tenant primary key *)

(** A named parameter that is given by keyword takes the value of the
    keyword. *)
Lemma bind_params_keyword (params : list (string * option value)) :
  NoDup (params.*1) ->
  forall (args : list value) (kwargs : gmap string value) (vs : list value)
         (rest : gmap string value) (i : nat) (p : string) (v : value),
    bind_params params args kwargs = Ok (vs, rest) ->
    params.*1 !! i = Some p ->
    kwargs !! p = Some v ->
    vs !! i = Some v.
Proof.
  induction params as [|[q dflt] params IH]; intros Hnodup args kwargs vs rest i p v
    Hbind Hi Hp; [done|].
  simpl in Hnodup. apply NoDup_cons in Hnodup as [Hq Hnodup].
  destruct args as [|a args]; simpl in Hbind.
  - destruct (kwargs !! q) as [u|] eqn:Hkq.
    + destruct (bind_params params [] (delete q kwargs)) as [[vs' rest']|e] eqn:Hrec;
        simpl in Hbind; [|discriminate].
      inversion Hbind; subst; clear Hbind.
      destruct i as [|i]; simpl in Hi.
      * inversion Hi; subst. simpl. congruence.
      * simpl. eapply (IH Hnodup _ _ _ _ _ _ _ Hrec Hi).
        rewrite lookup_delete_ne; [exact Hp|].
        intros ->. apply Hq. by eapply list_elem_of_lookup_2.
    + destruct dflt as [d|]; [|discriminate].
      destruct (bind_params params [] kwargs) as [[vs' rest']|e] eqn:Hrec;
        simpl in Hbind; [|discriminate].
      inversion Hbind; subst; clear Hbind.
      destruct i as [|i]; simpl in Hi.
      * inversion Hi; subst. congruence.
      * simpl. by eapply (IH Hnodup _ _ _ _ _ _ _ Hrec Hi).
  - destruct (kwargs !! q) as [u|] eqn:Hkq; [discriminate|].
    destruct (bind_params params args kwargs) as [[vs' rest']|e] eqn:Hrec;
      simpl in Hbind; [|discriminate].
    inversion Hbind; subst; clear Hbind.
    destruct i as [|i]; simpl in Hi.
    + inversion Hi; subst. congruence.
    + simpl. by eapply (IH Hnodup _ _ _ _ _ _ _ Hrec Hi).
Qed.

(** Every tenant primary key that is constructed is a primary key, hence
    unique, whatever the caller passed, and carries the [tenant_id]
    keyword it was given. *)
Theorem tenant_primary_key_is_primary (args : list value)
    (kwargs : gmap string value) (f : RelatedField) :
  TenantPrimaryKey.__init__ args kwargs = Ok f ->
  primary_key f = VTrue
  /\ truthy (unique f) = true
  /\ field_tenant_id f = default VNone (kwargs !! "tenant_id").
Proof.
  unfold TenantPrimaryKey.__init__, TenantPrimaryKey.super_init.
  intros Hinit. apply init_tenant_id in Hinit as (f0 & Hf0 & ->).
  rewrite lookup_insert_ne by discriminate.
  assert (Hpk : primary_key f0 = VTrue).
  { revert Hf0. unfold AutoField_init. cbv [mbind result_bind].
    destruct (bind_params _ args _) as [[vs rest]|e] eqn:Hbind; [|discriminate].
    assert (Hthird : vs !! 2%nat = Some VTrue).
    { assert (Hnodup : NoDup ["verbose_name"; "name"; "primary_key";
                              "max_length"; "unique"]).
      { apply (bool_decide_unpack _). vm_compute. exact I. }
      match type of Hbind with
      | bind_params ?params _ _ = _ =>
          apply (bind_params_keyword params Hnodup _ _ _ _ 2%nat "primary_key"
                   VTrue Hbind); [reflexivity|]
      end.
      rewrite lookup_insert_ne by discriminate.
      rewrite lookup_delete_ne by discriminate. apply lookup_insert_eq. }
    do 5 (destruct vs as [|? vs]; try discriminate).
    destruct vs; [|discriminate].
    intros Hf0. inversion Hf0; subst; clear Hf0. simpl.
    simpl in Hthird. congruence. }
  split; [exact Hpk|]. split; [|reflexivity].
  unfold unique. simpl. destruct (truthy (_unique f0)) eqn:Hu; [exact Hu|].
  by rewrite Hpk.
Qed.

Lemma tenant_primary_key_is_primary_witness :
  exists f : RelatedField,
    TenantPrimaryKey.__init__ []
      {[ "primary_key" := VFalse; "tenant_id" := VStr "store_id" ]} = Ok f
    /\ primary_key f = VTrue
    /\ truthy (unique f) = true
    /\ field_tenant_id f = VStr "store_id".
Proof.
  destruct (TenantPrimaryKey.__init__ []
              {[ "primary_key" := VFalse; "tenant_id" := VStr "store_id" ]})
    as [f|e] eqn:Hinit; [|discriminate Hinit].
  exists f. split; [reflexivity|].
  exact (tenant_primary_key_is_primary _ _ f Hinit).
Defined.

(** [primary_key] is the third positional parameter of a field; since the
    constructor always passes it by keyword, a call with three or more
    positional values never yields a field. *)
Theorem tenant_primary_key_rejects_third_positional (args : list value)
    (kwargs : gmap string value) :
  (3 <= length args)%nat ->
  exists e : exn, TenantPrimaryKey.__init__ args kwargs = Raise e.
Proof.
  intros Hlen.
  destruct args as [|a1 [|a2 [|a3 args]]]; simpl in Hlen; try lia.
  unfold TenantPrimaryKey.__init__, TenantPrimaryKey.super_init,
    TenantIDFieldMixin.__init__, AutoField_init.
  cbv [mbind result_bind]. simpl.
  repeat match goal with
         | |- context [match ?m !! ?k with _ => _ end] =>
             lazymatch k with
             | "primary_key" => fail
             | _ => destruct (m !! k); [by eexists|]
             end
         end.
  rewrite lookup_insert_ne by discriminate.
  rewrite lookup_delete_ne by discriminate.
  rewrite lookup_insert_eq. by eexists.
Qed.

Lemma tenant_primary_key_rejects_third_positional_witness :
  exists e : exn,
    TenantPrimaryKey.__init__ [VStr "identifier"; VStr "id"; VTrue] ∅ = Raise e.
Proof.
  apply (tenant_primary_key_rejects_third_positional
           [VStr "identifier"; VStr "id"; VTrue] ∅).
  simpl. lia.
Defined.

(** The keyword a constructor forces is out of the caller's hands: a
    [unique] passed to the one-to-one field, or a [primary_key] passed to
    the tenant primary key, changes nothing in what is constructed. *)
Theorem forced_keyword_ignores_caller (args : list value)
    (kwargs : gmap string value) (v : value) :
  TenantOneToOneField.__init__ args (<["unique" := v]> kwargs)
  = TenantOneToOneField.__init__ args (delete "unique" kwargs)
  /\ TenantPrimaryKey.__init__ args (<["primary_key" := v]> kwargs)
     = TenantPrimaryKey.__init__ args (delete "primary_key" kwargs).
Proof.
  unfold TenantOneToOneField.__init__, TenantPrimaryKey.__init__.
  by rewrite !insert_insert_eq, !insert_delete_eq.
Qed.

(** ** The tenant column through deconstruction *)

Lemma tenant_primary_key_tenant_id (args : list value) (kwargs : gmap string value)
    (f : RelatedField) :
  TenantPrimaryKey.__init__ args kwargs = Ok f ->
  field_tenant_id f = default VNone (kwargs !! "tenant_id").
Proof.
  unfold TenantPrimaryKey.__init__, TenantPrimaryKey.super_init.
  intros Hinit. apply init_tenant_id in Hinit as (f0 & _ & ->).
  simpl. by rewrite lookup_insert_ne.
Qed.

Lemma one_to_one_tenant_id (args : list value) (kwargs : gmap string value)
    (f : RelatedField) :
  TenantOneToOneField.__init__ args kwargs = Ok f ->
  field_tenant_id f = default VNone (kwargs !! "tenant_id").
Proof.
  unfold TenantOneToOneField.__init__, TenantOneToOneField.super_init,
    OneToOneField_init.
  cbv [mbind result_bind].
  destruct (bind_params _ args _) as [[vs rest]|e] eqn:Hbind; [|discriminate].
  destruct vs as [|v_to [|v_on_delete [|v_to_field [|? ?]]]]; try discriminate.
  intros Hinit. apply init_tenant_id in Hinit as (f0 & _ & ->).
  simpl. rewrite !lookup_insert_ne by discriminate.
  erewrite bind_params_rest; [|..|exact Hbind].
  - by rewrite lookup_insert_ne.
  - repeat constructor; discriminate.
Qed.

(** [deconstruct] reports the field's [tenant_id] under the keyword
    [tenant_id], whatever the class above reported there, and leaves the
    name, the path, the positional arguments and every other keyword as
    the class above reported them. A tenant primary key, and a one-to-one
    field (whose [deconstruct] goes on to drop [unique]), constructed
    again from what is reported has the same [tenant_id]. *)
Theorem tenant_id_survives_deconstruct
    (super_deconstruct : deconstruct_method) (self : RelatedField) :
  let above := super_deconstruct self in
  let d := TenantIDFieldMixin.deconstruct super_deconstruct self in
  let d1 := OneToOneField_deconstruct
              (TenantIDFieldMixin.deconstruct super_deconstruct) self in
  dec_name d = dec_name above
  /\ dec_path d = dec_path above
  /\ dec_args d = dec_args above
  /\ dec_kwargs d !! "tenant_id" = Some (field_tenant_id self)
  /\ delete "tenant_id" (dec_kwargs d) = delete "tenant_id" (dec_kwargs above)
  /\ (forall again : RelatedField,
        TenantPrimaryKey.__init__ (dec_args d) (dec_kwargs d) = Ok again ->
        field_tenant_id again = field_tenant_id self)
  /\ (forall again : RelatedField,
        TenantOneToOneField.__init__ (dec_args d1) (dec_kwargs d1) = Ok again ->
        field_tenant_id again = field_tenant_id self).
Proof.
  intros above d d1.
  unfold d1, d, OneToOneField_deconstruct, TenantIDFieldMixin.deconstruct.
  simpl. fold above.
  split; [reflexivity|]. split; [reflexivity|]. split; [reflexivity|].
  split; [apply lookup_insert_eq|]. split; [apply delete_insert_eq|]. split.
  - intros again Hinit. apply tenant_primary_key_tenant_id in Hinit.
    by rewrite Hinit, lookup_insert_eq.
  - intros again Hinit. apply one_to_one_tenant_id in Hinit.
    rewrite Hinit, lookup_delete_ne by discriminate. by rewrite lookup_insert_eq.
Qed.

Lemma tenant_id_survives_deconstruct_witness :
  (exists again : RelatedField,
     TenantOneToOneField.__init__
       (dec_args (OneToOneField_deconstruct
                    (TenantIDFieldMixin.deconstruct Shop.relation_deconstruct)
                    Shop.purchase_product_field))
       (dec_kwargs (OneToOneField_deconstruct
                      (TenantIDFieldMixin.deconstruct Shop.relation_deconstruct)
                      Shop.purchase_product_field))
     = Ok again
     /\ field_tenant_id again = VStr "store_id")
  /\ (exists again : RelatedField,
        TenantPrimaryKey.__init__
          (dec_args (TenantIDFieldMixin.deconstruct Shop.key_deconstruct
                       Shop.purchase_key_field))
          (dec_kwargs (TenantIDFieldMixin.deconstruct Shop.key_deconstruct
                         Shop.purchase_key_field))
        = Ok again
        /\ field_tenant_id again = VStr "store_id").
Proof.
  destruct (tenant_id_survives_deconstruct Shop.relation_deconstruct
              Shop.purchase_product_field) as (_ & _ & _ & _ & _ & _ & Hone).
  destruct (tenant_id_survives_deconstruct Shop.key_deconstruct
              Shop.purchase_key_field) as (_ & _ & _ & _ & _ & Hkey & _).
  split.
  - match goal with
    | |- exists again, ?c = Ok again /\ _ =>
        assert (Hinit : exists again, c = Ok again)
          by (vm_compute; eexists; reflexivity)
    end.
    destruct Hinit as (again & Hinit).
    exists again. split; [exact Hinit|]. exact (Hone again Hinit).
  - match goal with
    | |- exists again, ?c = Ok again /\ _ =>
        assert (Hinit : exists again, c = Ok again)
          by (vm_compute; eexists; reflexivity)
    end.
    destruct Hinit as (again & Hinit).
    exists again. split; [exact Hinit|]. exact (Hkey again Hinit).
Defined.

(** ** Construction of a model *)

(** Constructing a tenant model yields what the base constructor yields,
    in any state of the process, and leaves the tenant context, the log
    and the tables alone: at most the two patchable attributes change. *)
Theorem init_changes_patches_only (cls : Model) (args : list value)
    (kwargs : gmap string value) (w : World) :
  let out := TenantModelMixin.__init__ cls args kwargs w in
  out.1 = (Model_init cls args kwargs w).1
  /\ tenant out.2 = tenant w
  /\ log out.2 = log w
  /\ db out.2 = db w
  /\ (hasattr (DeleteQuery_get_compiler w) "_sign" = true -> out.2 = w).
Proof.
  intros out. split.
  - unfold out, TenantModelMixin.__init__, Model_init. run.
    destruct (hasattr (DeleteQuery_get_compiler w) "_sign"); simpl;
      by repeat case_match.
  - unfold out. rewrite init_world.
    destruct (hasattr (DeleteQuery_get_compiler w) "_sign"); by auto.
Qed.
